(** * ASA-to-FMC static route migrator: a shallow embedding

    The program under study is [asaToFMCrouteMigrator.py], one class
    [FMCRouteConverter] and a [main] function.  Its methods are embedded
    below as Rocq functions over an explicit object state (the two object
    caches), in a small trace/outcome monad that records what the script
    prints, which HTTP requests it sends, when it sleeps, and how it ends
    (normal return, [sys.exit], or an exception that nobody catches). *)

From Stdlib Require Import String Ascii.
From stdpp Require Import gmap list sorting.

Set Warnings "-clear-no-such-hyp".

Open Scope N_scope.

(** ** Python strings

    A Python [str] is a sequence of Unicode code points.  It is modelled as
    a list of code points, so that equality, concatenation, comparison and
    whitespace are the ones of Python, also outside ASCII. *)

Abbreviation str := (list N).

(** A string literal of the source, as a [str]. *)
Definition lit (s : string) : str :=
  map N_of_ascii (list_ascii_of_string s).
Arguments lit : simpl never.

(** [str.isspace] on one code point (CPython's [_PyUnicode_IsWhitespace]):
    the characters at which [str.split()] cuts and which [str.strip()]
    removes. *)
Definition is_space (c : N) : bool :=
  (9 <=? c) && (c <=? 13)
  || (28 <=? c) && (c <=? 32)
  || (c =? 133) || (c =? 160) || (c =? 5760)
  || (8192 <=? c) && (c <=? 8202)
  || (c =? 8232) || (c =? 8233) || (c =? 8239) || (c =? 8287)
  || (c =? 12288).

(** [s.lstrip()], [s.rstrip()], [s.strip()]. *)
Fixpoint lstrip (s : str) : str :=
  match s with
  | c :: s' => if is_space c then lstrip s' else s
  | [] => []
  end.

Definition rstrip (s : str) : str := rev (lstrip (rev s)).

Definition strip (s : str) : str := rstrip (lstrip s).

(** [s.split()] with no separator: the maximal runs of characters that are
    not whitespace, in order; no empty string is ever produced.  [cur] is
    the token being read, last character first. *)
Fixpoint split_from (cur : str) (s : str) : list str :=
  match s with
  | [] => match cur with [] => [] | _ => [rev cur] end
  | c :: s' =>
      if is_space c
      then match cur with
           | [] => split_from [] s'
           | _ => rev cur :: split_from [] s'
           end
      else split_from (c :: cur) s'
  end.

Definition split (s : str) : list str := split_from [] s.

(** Comparison of two [str] as Python's [<=] does it: code point by code
    point, a proper prefix first. *)
Fixpoint str_le (a b : str) : bool :=
  match a, b with
  | [], _ => true
  | _ :: _, [] => false
  | x :: a', y :: b' =>
      if x <? y then true else if x =? y then str_le a' b' else false
  end.

(** [sorted(xs)] on strings.  Python's sort is a stable merge sort; on a
    total order every sorting algorithm returns the same list (see
    [sorted_unique] below), so an insertion sort stands for it. *)
Fixpoint insert_sorted (x : str) (l : list str) : list str :=
  match l with
  | [] => [x]
  | y :: l' => if str_le x y then x :: l else y :: insert_sorted x l'
  end.

Fixpoint sorted (l : list str) : list str :=
  match l with
  | [] => []
  | x :: l' => insert_sorted x (sorted l')
  end.

Close Scope N_scope.

(** ** Effects: traces and outcomes *)

(** The members of an FMC object that the program reads are strings; a JSON
    object of the listing is modelled as a finite map from member name to
    string value ([obj['name']] is [obj !! lit "name"], and a missing member
    is a [KeyError]). *)
Abbreviation fmc_object := (gmap str str).

(** The route dictionary built at lines 138-155, and its nested parts. *)
Record ObjRef := {
  ref_type : str;
  ref_id : str;
  ref_name : str
}.

Record Gateway := { object : ObjRef }.

Record RoutePayload := {
  interfaceName : str;
  selectedNetworks : list ObjRef;
  gateway : Gateway;
  metricValue : Z;
  route_type : str;
  isTunneled : bool
}.

(** One constructor per [print] statement of the source, carrying the
    values interpolated into its text. *)
Inductive diag :=
  (* login *)
  | ErrorAuthenticating (e : str)
  (* get_device_id *)
  | DeviceNotFound (device_name : str)
  | ErrorGettingDeviceId (e : str)
  (* get_existing_objects *)
  | FetchingNetworkObjects
  | FoundNetworkObject (name : str)
  | ErrorGettingNetworkObjects (e : str)
  | FetchingHostObjects
  | FoundHostObject (name : str)
  | ErrorGettingHostObjects (e : str)
  | TotalObjectsFound (networks hosts : nat)
  (* find_or_create_object *)
  | FoundExistingObject (name value : str)
  | NoExistingObject (value : str)
  (* parse_and_prepare_routes *)
  | ParsingRoutes
  | PreparedRoute (network netmask gateway : str)
  | ObjectsNotFound
  | MissingItem (obj : str)
  | PleaseCreate
  (* deploy_routes *)
  | DeployingRoutes (total : nat)
  | DeployedRoute (i total : nat) (name : str)
  | ErrorDeployingRoute (name e : str)
  | FailedRouteDetails (route : RoutePayload)
  | StoppingDeployment
  (* main *)
  | LoggingIn
  | GettingDeviceId (device_name : str)
  | GettingExistingObjects
  | ParsingAndPreparing
  | ReadyToDeploy (n : nat)
  | DeploymentCancelled
  | DeploymentComplete.

(** The HTTP requests of the program, by endpoint. *)
Inductive request :=
  | GenerateToken
  | ListDevices
  | ListNetworks
  | ListHosts
  | CreateRoute (route : RoutePayload).

Inductive event :=
  | Out (d : diag)
  | Http (r : request)
  | Sleep (seconds : nat)
  | Input.

Inductive exn :=
  (* raised by the program's own operations *)
  | ValueError
  | KeyError (key : str)
  | IndexError
  (* raised by [open] and by the reading of a file ([FileNotFoundError],
     [PermissionError] and the like are subclasses of [OSError]) *)
  | OSError
  | UnicodeDecodeError
  (* raised by [input] *)
  | EOFError
  | KeyboardInterrupt
  (* any other exception class, by its name *)
  | OtherException (class_name : str).

(** How a piece of the program ends: it returns a value, calls
    [sys.exit(code)], or raises an exception that is not caught. *)
Inductive outcome (A : Type) :=
  | Return (a : A)
  | Exit (code : Z)
  | Raise (e : exn).
Arguments Return {A} a.
Arguments Exit {A} code.
Arguments Raise {A} e.

Definition M (A : Type) : Type := list event * outcome A.

Definition ret {A} (a : A) : M A := ([], Return a).

Definition bind {A B} (m : M A) (k : A -> M B) : M B :=
  match m with
  | (t, Return a) => let (t', r) := k a in (t ++ t', r)
  | (t, Exit c) => (t, Exit c)
  | (t, Raise e) => (t, Raise e)
  end.

#[global] Instance M_ret : MRet M := @ret.
#[global] Instance M_bind : MBind M := λ A B k m, bind m k.

Definition emit (e : event) : M unit := ([e], Return tt).
Definition print (d : diag) : M unit := emit (Out d).
Definition sys_exit {A} (code : Z) : M A := ([], Exit code).
Definition raise {A} (e : exn) : M A := ([], Raise e).

Definition trace {A} (m : M A) : list event := fst m.
Definition result {A} (m : M A) : outcome A := snd m.

(** [for x in xs: s = body(s, x)]: the loop stops at the first iteration
    that exits or raises. *)
Fixpoint for_each {A S} (body : S -> A -> M S) (xs : list A) (s : S) : M S :=
  match xs with
  | [] => ret s
  | x :: xs' => s' ← body s x; for_each body xs' s'
  end.

(** [obj[key]] on a dictionary. *)
Definition getitem (obj : fmc_object) (key : str) : M str :=
  match obj !! key with
  | Some v => ret v
  | None => raise (KeyError key)
  end.

(** What a request to FMC comes to: a decoded answer, or a
    [requests.exceptions.RequestException] (transport error, or the non-2xx
    status that [raise_for_status] turns into one) with its text. *)
Inductive response (A : Type) :=
  | Answered (a : A)
  | RequestException (e : str).
Arguments Answered {A} a.
Arguments RequestException {A} e.

(** ** The converter object

    Of the fields of [FMCRouteConverter], the two caches are the state the
    methods below read and write; host, credentials, headers, domain and
    device identifiers only shape the URLs of the requests. *)
Record FMCRouteConverter := {
  network_objects : gmap str fmc_object;
  host_objects : gmap str fmc_object
}.

(** [__init__]: both caches start empty. *)
Definition init : FMCRouteConverter :=
  {| network_objects := ∅; host_objects := ∅ |}.

(** Lines 69-73: the loop over the listed network objects.  The key is the
    object's name, formatted as a string (line 71), which for a string is
    the string itself. *)
Definition add_network_object (cache : gmap str fmc_object) (obj : fmc_object)
  : M (gmap str fmc_object) :=
  match obj !! lit "name" with
  | Some name =>
      let key := name in
      let cache := <[key := obj]> cache in
      print (FoundNetworkObject name);;
      ret cache
  | None => ret cache
  end.

(** Lines 84-87: the loop over the listed host objects. *)
Definition add_host_object (cache : gmap str fmc_object) (obj : fmc_object)
  : M (gmap str fmc_object) :=
  match obj !! lit "name" with
  | Some name =>
      let cache := <[name := obj]> cache in
      print (FoundHostObject name);;
      ret cache
  | None => ret cache
  end.

(** [get_existing_objects], lines 60-91.  [networks] and [hosts] are what
    the two listing requests come to: the [items] of the decoded answer,
    or the exception that the [except] clause catches. *)
Definition get_existing_objects (self : FMCRouteConverter)
    (networks hosts : response (list fmc_object)) : M FMCRouteConverter :=
  print FetchingNetworkObjects;;
  emit (Http ListNetworks);;
  nets ← match networks with
          | Answered items =>
              for_each add_network_object items (network_objects self)
          | RequestException e =>
              print (ErrorGettingNetworkObjects e);;
              ret (network_objects self)
          end;
  print FetchingHostObjects;;
  emit (Http ListHosts);;
  hsts ← match hosts with
          | Answered items =>
              for_each add_host_object items (host_objects self)
          | RequestException e =>
              print (ErrorGettingHostObjects e);;
              ret (host_objects self)
          end;
  print (TotalObjectsFound (size nets) (size hsts));;
  ret {| network_objects := nets; host_objects := hsts |}.

(** [find_or_create_object], lines 93-107.  [mask = None] is the default
    argument of the source. *)
Definition is_host (mask : option str) : bool :=
  match mask with
  | Some m => bool_decide (m = lit "255.255.255.255")
  | None => true
  end.

Definition find_or_create_object (self : FMCRouteConverter)
    (value : str) (mask : option str) : M (option fmc_object) :=
  let cache := if is_host mask then host_objects self else network_objects self in
  let cache_key :=
    if is_host mask then lit "obj-" ++ value else lit "obj-" ++ value in
  match cache !! cache_key with
  | Some obj =>
      name ← getitem obj (lit "name");
      print (FoundExistingObject name value);;
      ret (Some obj)
  | None =>
      print (NoExistingObject value);;
      ret None
  end.

(** [if not obj:] on what [find_or_create_object] returned: [None] and the
    empty dictionary are false, every other dictionary is true. *)
Definition truthy (obj : option fmc_object) : option fmc_object :=
  match obj with
  | Some d => if decide (d = ∅) then None else Some d
  | None => None
  end.

(** The local variables of one loop iteration of
    [parse_and_prepare_routes] after lines 119-123: a route intent. *)
Record RouteIntent := {
  intent_interface : str;
  intent_network : str;
  intent_netmask : str;
  intent_gateway : str;
  intent_metric : Z
}.

(** What lines 125-135 come to for one intent. *)
Inductive resolution :=
  | Resolved (net_obj gw_obj : fmc_object)
  | MissingReference (descriptor : str).

(** [enumerate(xs, start)]. *)
Fixpoint enumerate {A} (start : nat) (xs : list A) : list (nat * A) :=
  match xs with
  | [] => []
  | x :: xs' => (start, x) :: enumerate (S start) xs'
  end.

(** What the run meets outside the program. *)
Record environment := {
  (** the token request of [login] *)
  env_auth : response unit;
  (** the device listing of [get_device_id] *)
  env_devices : response (list fmc_object);
  (** the two object listings of [get_existing_objects] *)
  env_networks : response (list fmc_object);
  env_hosts : response (list fmc_object);
  (** the lines of the routes file, in order *)
  env_routes_file : list str;
  (** whether the operator's answer, lower-cased, is [yes] *)
  env_confirm : bool;
  (** the route creation request number [i] (from 1), for a given route *)
  env_post : nat → RoutePayload → response unit
}.

(** The two accumulators before the first line is read (lines 111-112). *)
Definition start : list RoutePayload * gset str := ([], ∅).

Section Pipeline.

(** Python's built-in [int] on a [str]: the integer read, or [None] where
    it raises [ValueError].  The development is parametric in it (its
    table of decimal digits and its length limit vary with the
    interpreter); [int_literal] below is its reading of ASCII tokens. *)
Variable py_int : str → option Z.

(** Lines 117-123: the tokens of one line, and the intent they carry. *)
Definition parse_line (line : str) : M (option RouteIntent) :=
  let parts := split (strip line) in
  match parts with
  | [keyword; interface; network; netmask; gateway; metric] =>
      if decide (keyword = lit "route") then
        match py_int metric with
        | Some metric =>
            ret (Some {| intent_interface := interface;
                         intent_network := network;
                         intent_netmask := netmask;
                         intent_gateway := gateway;
                         intent_metric := metric |})
        | None => raise ValueError
        end
      else ret None
  | _ => ret None
  end.

(** Lines 125-135: the gateway first, then the network. *)
Definition resolve (self : FMCRouteConverter) (intent : RouteIntent)
  : M resolution :=
  let network := intent_network intent in
  let netmask := intent_netmask intent in
  let gateway := intent_gateway intent in
  gw_obj ← find_or_create_object self gateway None;
  match truthy gw_obj with
  | None => ret (MissingReference (lit "Gateway: " ++ gateway))
  | Some gw_obj =>
      net_obj ← find_or_create_object self network (Some netmask);
      match truthy net_obj with
      | None =>
          ret (MissingReference
                 (lit "Network: " ++ network ++ lit "/" ++ netmask))
      | Some net_obj => ret (Resolved net_obj gw_obj)
      end
  end.

(** Lines 138-155: the route dictionary, its members read in the order
    of the source. *)
Definition build_route (intent : RouteIntent) (net_obj gw_obj : fmc_object)
  : M RoutePayload :=
  net_type ← getitem net_obj (lit "type");
  net_id ← getitem net_obj (lit "id");
  net_name ← getitem net_obj (lit "name");
  gw_type ← getitem gw_obj (lit "type");
  gw_id ← getitem gw_obj (lit "id");
  gw_name ← getitem gw_obj (lit "name");
  ret {| interfaceName := intent_interface intent;
         selectedNetworks :=
           [ {| ref_type := net_type; ref_id := net_id; ref_name := net_name |} ];
         gateway :=
           {| object :=
                {| ref_type := gw_type; ref_id := gw_id; ref_name := gw_name |} |};
         metricValue := intent_metric intent;
         route_type := lit "IPv4StaticRoute";
         isTunneled := false |}.

(** One iteration of the loop of lines 116-157, on the two accumulators
    [routes] and [missing_objects]. *)
Definition process_line (self : FMCRouteConverter)
    (acc : list RoutePayload * gset str) (line : str)
  : M (list RoutePayload * gset str) :=
  let routes := acc.1 in
  let missing_objects := acc.2 in
  parsed ← parse_line line;
  match parsed with
  | None => ret acc
  | Some intent =>
      r ← resolve self intent;
      match r with
      | MissingReference descriptor =>
          ret (routes, missing_objects ∪ {[ descriptor ]})
      | Resolved net_obj gw_obj =>
          route ← build_route intent net_obj gw_obj;
          print (PreparedRoute (intent_network intent)
                   (intent_netmask intent) (intent_gateway intent));;
          ret (routes ++ [route], missing_objects)
      end
  end.

(** Lines 111-157: the scan of the whole file. *)
Definition scan (self : FMCRouteConverter) (lines : list str)
  : M (list RoutePayload * gset str) :=
  print ParsingRoutes;;
  for_each (process_line self) lines start.

(** [parse_and_prepare_routes], lines 109-166, on a file that opens and is
    read to its end; [lines] are the lines of the file named by
    [filename].  [parse_and_prepare_routes_reading] below is the method on
    a file whose opening or reading may raise. *)
Definition parse_and_prepare_routes (self : FMCRouteConverter)
    (lines : list str) : M (list RoutePayload) :=
  acc ← scan self lines;
  let routes := acc.1 in
  let missing_objects := acc.2 in
  if decide (missing_objects ≠ ∅) then
    print ObjectsNotFound;;
    for_each (λ _ obj, print (MissingItem obj))
             (sorted (elements missing_objects)) tt;;
    print PleaseCreate;;
    sys_exit 1
  else ret routes.

(** What [open(filename, 'r')] and the iteration [for line in f] of lines
    115-116 come to: the lines the iteration yields, in order, and the
    exception that ends it when it does not reach the end of the file.  A
    file that cannot be opened yields no line and ends with the [OSError]
    of [open]; a read or a decoding that fails ends the iteration after
    the lines read so far. *)
Record reading := {
  lines_read : list str;
  read_error : option exn
}.

(** [parse_and_prepare_routes], lines 109-166, on such a reading.  Nothing
    catches the exception of the file: it leaves the [with] block and the
    method once the lines read before it were processed, so lines 159-166
    are not reached. *)
Definition parse_and_prepare_routes_reading (self : FMCRouteConverter)
    (file : reading) : M (list RoutePayload) :=
  match read_error file with
  | None => parse_and_prepare_routes self (lines_read file)
  | Some e => scan self (lines_read file);; raise e
  end.

End Pipeline.

(** [route['selectedNetworks'][0]['name']]. *)
Definition first_network_name (route : RoutePayload) : M str :=
  match selectedNetworks route with
  | net :: _ => ret (ref_name net)
  | [] => raise IndexError
  end.

(** The body of the loop of [deploy_routes], lines 176-189. *)
Definition deploy_route (post : nat → RoutePayload → response unit)
    (total : nat) (_ : unit) (item : nat * RoutePayload) : M unit :=
  let i := item.1 in
  let route := item.2 in
  emit (Http (CreateRoute route));;
  match post i route with
  | Answered _ =>
      name ← first_network_name route;
      print (DeployedRoute i total name);;
      if decide (i mod 10 = 0) then emit (Sleep 1) else ret tt
  | RequestException e =>
      name ← first_network_name route;
      print (ErrorDeployingRoute name e);;
      print (FailedRouteDetails route);;
      print StoppingDeployment;;
      sys_exit 1
  end.

(** [deploy_routes], lines 168-189. *)
Definition deploy_routes (post : nat → RoutePayload → response unit)
    (routes : list RoutePayload) : M unit :=
  let total := length routes in
  print (DeployingRoutes total);;
  for_each (deploy_route post total) (enumerate 1 routes) tt.

(** [login], lines 24-41. *)
Definition login (auth : response unit) : M unit :=
  emit (Http GenerateToken);;
  match auth with
  | Answered _ => ret tt
  | RequestException e => print (ErrorAuthenticating e);; sys_exit 1
  end.

(** The loop of [get_device_id], lines 50-53: whether a device of that
    name is listed. *)
Fixpoint search_device (devices : list fmc_object) (device_name : str)
  : M bool :=
  match devices with
  | [] => ret false
  | device :: rest =>
      name ← getitem device (lit "name");
      if decide (name = device_name)
      then (_ ← getitem device (lit "id"); ret true)
      else search_device rest device_name
  end.

(** [get_device_id], lines 43-58. *)
Definition get_device_id (listing : response (list fmc_object))
    (device_name : str) : M unit :=
  emit (Http ListDevices);;
  match listing with
  | Answered devices =>
      found ← search_device devices device_name;
      if found : bool then ret tt
      else print (DeviceNotFound device_name);; sys_exit 1
  | RequestException e => print (ErrorGettingDeviceId e);; sys_exit 1
  end.

Definition DEVICE_NAME : str := lit "FTD_NAME".

(** [main], lines 191-228, in a run whose routes file is read to its end
    and whose prompt is answered.  [main_with] below is the run in which
    the reading of the file or [input] may raise. *)
Definition main (py_int : str → option Z) (env : environment) : M unit :=
  let fmc := init in
  print LoggingIn;;
  login (env_auth env);;
  print (GettingDeviceId DEVICE_NAME);;
  get_device_id (env_devices env) DEVICE_NAME;;
  print GettingExistingObjects;;
  fmc ← get_existing_objects fmc (env_networks env) (env_hosts env);
  print ParsingAndPreparing;;
  routes ← parse_and_prepare_routes py_int fmc (env_routes_file env);
  print (ReadyToDeploy (length routes));;
  emit Input;;
  (if env_confirm env then ret tt
   else print DeploymentCancelled;; sys_exit 0);;
  deploy_routes (env_post env) routes;;
  print DeploymentComplete.

(** [input(prompt)] at line 220: the prompt, then the operator's line, or
    the exception [input] raises ([EOFError] when standard input is at its
    end, [KeyboardInterrupt] when the operator interrupts). *)
Definition input (input_error : option exn) : M unit :=
  emit Input;;
  match input_error with
  | Some e => raise e
  | None => ret tt
  end.

(** [main], lines 191-228, with what the run meets outside the program
    beyond [env]: [file_error] is the exception that ends the reading of
    the routes file after the lines [env_routes_file env], if one does, and
    [input_error] the exception of [input], if it raises.  Neither is
    caught. *)
Definition main_with (py_int : str → option Z) (env : environment)
    (file_error input_error : option exn) : M unit :=
  let fmc := init in
  print LoggingIn;;
  login (env_auth env);;
  print (GettingDeviceId DEVICE_NAME);;
  get_device_id (env_devices env) DEVICE_NAME;;
  print GettingExistingObjects;;
  fmc ← get_existing_objects fmc (env_networks env) (env_hosts env);
  print ParsingAndPreparing;;
  routes ← parse_and_prepare_routes_reading py_int fmc
              {| lines_read := env_routes_file env;
                 read_error := file_error |};
  print (ReadyToDeploy (length routes));;
  input input_error;;
  (if env_confirm env then ret tt
   else print DeploymentCancelled;; sys_exit 0);;
  deploy_routes (env_post env) routes;;
  print DeploymentComplete.

(** ** A reading of [int] for the worked examples

    [int(s)] on a token of ASCII characters: an optional sign, then decimal
    digits, single underscores allowed between two digits.  It is not
    CPython's [int] on every token: [int] also reads the decimal digits of
    other scripts, and refuses a token of more digits than the
    interpreter's limit.  It is applied below to the tokens [1], [5] and
    [abc] of the worked examples only, where the two agree; every theorem
    is stated for an arbitrary [py_int]. *)
Definition digit_value (c : N) : option Z :=
  if ((48 <=? c) && (c <=? 57))%N then Some (Z.of_N (c - 48)) else None.

Fixpoint read_digits (s : str) (acc : Z) (after_digit : bool) : option Z :=
  match s with
  | [] => if after_digit then Some acc else None
  | c :: s' =>
      match digit_value c with
      | Some d => read_digits s' (10 * acc + d)%Z true
      | None =>
          if (c =? 95)%N && after_digit then read_digits s' acc false
          else None
      end
  end.

Definition int_literal (s : str) : option Z :=
  match s with
  | 43%N :: s' => read_digits s' 0%Z false
  | 45%N :: s' => Z.opp <$> read_digits s' 0%Z false
  | _ => read_digits s 0%Z false
  end.

(** ** Vocabulary of the statements *)

(** [a <= b] on Python strings, as a relation. *)
Definition str_order : relation str := λ a b, str_le a b = true.

(** One step of the two loading loops on the cache alone. *)
Definition index_by_name (cache : gmap str fmc_object) (obj : fmc_object)
  : gmap str fmc_object :=
  match obj !! lit "name" with
  | Some name => <[name := obj]> cache
  | None => cache
  end.

(** The cache after one listing request. *)
Definition loaded (listing : response (list fmc_object))
    (cache : gmap str fmc_object) : gmap str fmc_object :=
  match listing with
  | Answered items => foldl index_by_name cache items
  | RequestException _ => cache
  end.

(** The last object of a listing that carries a given name. *)
Definition last_named (name : str) (items : list fmc_object)
  : option fmc_object :=
  last (filter (λ obj, obj !! lit "name" = Some name) items).

(** The diagnostics of a loading loop. *)
Definition found_trace (found : str → diag) (items : list fmc_object)
  : list event :=
  (λ name, Out (found name)) <$> omap (λ obj, obj !! lit "name") items.

(** What [get_existing_objects] prints for one listing. *)
Definition listing_trace (found : str → diag) (failed : str → diag)
    (listing : response (list fmc_object)) : list event :=
  match listing with
  | Answered items => found_trace found items
  | RequestException e => [Out (failed e)]
  end.

(** The invariant of both caches: an object is stored under its name. *)
Definition keyed_by_name (cache : gmap str fmc_object) : Prop :=
  ∀ key obj, cache !! key = Some obj → obj !! lit "name" = Some key.

(** The cache [find_or_create_object] reads for a given mask. *)
Definition partition_of (self : FMCRouteConverter) (mask : option str)
  : gmap str fmc_object :=
  if is_host mask then host_objects self else network_objects self.

(** One lookup, in a given cache (lines 102-107). *)
Definition lookup_object (cache : gmap str fmc_object) (value : str)
  : M (option fmc_object) :=
  match cache !! (lit "obj-" ++ value) with
  | Some obj =>
      match obj !! lit "name" with
      | Some name => ([Out (FoundExistingObject name value)], Return (Some obj))
      | None => ([], Raise (KeyError (lit "name")))
      end
  | None => ([Out (NoExistingObject value)], Return None)
  end.

Definition gateway_descriptor (gateway : str) : str :=
  lit "Gateway: " ++ gateway.

Definition network_descriptor (network netmask : str) : str :=
  lit "Network: " ++ network ++ lit "/" ++ netmask.

(** A line has the shape of a route directive: six tokens, the first of
    them the keyword. *)
Definition route_shape (line : str) : Prop :=
  length (split (strip line)) = 6
  ∧ head (split (strip line)) = Some (lit "route").

(** What follows a resolution in the loop body (lines 127-157). *)
Definition after_resolve (acc : list RoutePayload * gset str)
    (intent : RouteIntent) (r : resolution)
  : M (list RoutePayload * gset str) :=
  match r with
  | MissingReference descriptor => ret (acc.1, acc.2 ∪ {[ descriptor ]})
  | Resolved net_obj gw_obj =>
      route ← build_route intent net_obj gw_obj;
      print (PreparedRoute (intent_network intent)
               (intent_netmask intent) (intent_gateway intent));;
      ret (acc.1 ++ [route], acc.2)
  end.

(** A line records the descriptor [d]: it reads as an intent whose
    resolution misses with [d]. *)
Definition misses (py_int : str → option Z) (self : FMCRouteConverter)
    (line d : str) : Prop :=
  ∃ intent,
    parse_line py_int line = ret (Some intent)
    ∧ result (resolve self intent) = Return (MissingReference d).

(** A catalog entry with the three members the route dictionary reads. *)
Definition complete_entry (obj : fmc_object) : Prop :=
  is_Some (obj !! lit "name")
  ∧ is_Some (obj !! lit "type")
  ∧ is_Some (obj !! lit "id").

Definition complete_catalog (self : FMCRouteConverter) : Prop :=
  ∀ key obj,
    network_objects self !! key = Some obj ∨ host_objects self !! key = Some obj →
    complete_entry obj.

(** A line whose metric, if it is a route line, [int] accepts. *)
Definition readable (py_int : str → option Z) (line : str) : Prop :=
  route_shape line → is_Some ((split (strip line) !! 5) ≫= py_int).

(** The routes submitted along a trace, in order. *)
Definition submissions (t : list event) : list RoutePayload :=
  omap (λ ev, match ev with Http (CreateRoute route) => Some route | _ => None end) t.

Definition is_sleep (ev : event) : bool :=
  match ev with Sleep _ => true | _ => false end.

(** The number of pauses along a trace. *)
Definition pauses (t : list event) : nat :=
  length (filter (λ ev, is_sleep ev = true) t).

Definition is_diag (ev : event) : Prop := ∃ d, ev = Out d.

(** What a successful iteration leaves in the trace. *)
Definition deployed_step (total i : nat) (route : RoutePayload) (name : str)
  : list event :=
  [Http (CreateRoute route); Out (DeployedRoute i total name)]
    ++ (if decide (i mod 10 = 0) then [Sleep 1] else []).

(** The loop of [deploy_routes] from index [i] on. *)
Definition deploy_loop (post : nat → RoutePayload → response unit)
    (total : nat) (i : nat) (routes : list RoutePayload) : M unit :=
  for_each (deploy_route post total) (enumerate i routes) tt.

(** ** Data of the worked examples *)

(** The line of the specification's worked example. *)
Definition example_line : str :=
  lit "route inside 10.1.1.0 255.255.255.0 10.1.1.1 1".

(** A route line whose metric is not a number. *)
Definition bad_metric_line : str :=
  lit "route inside 10.1.1.0 255.255.255.0 10.1.1.1 abc".

(** The two objects of the specification's worked example, as FMC lists
    them: named [net-101] and [gw-111], with their address values. *)
Definition net_101 : fmc_object :=
  {[ lit "name" := lit "net-101"; lit "id" := lit "N1";
     lit "type" := lit "Network"; lit "value" := lit "10.1.1.0" ]}.

Definition gw_111 : fmc_object :=
  {[ lit "name" := lit "gw-111"; lit "id" := lit "H1";
     lit "type" := lit "Host"; lit "value" := lit "10.1.1.1" ]}.

(** Two caches written down directly: entries named [net-101] and
    [gw-111], stored under the keys that the lookups of [10.1.1.0] (as a
    network) and of [10.1.1.1] (as a host) use.  [get_existing_objects]
    never produces this state, since it stores an entry under its name
    (C1); it is a state of the converter for theorems that hold for any
    two caches. *)
Definition example_catalog : FMCRouteConverter :=
  {| network_objects :=
       {[ lit "obj-10.1.1.0" :=
            {[ lit "type" := lit "Network"; lit "id" := lit "N1";
               lit "name" := lit "net-101" ]} ]};
     host_objects :=
       {[ lit "obj-10.1.1.1" :=
            {[ lit "type" := lit "Host"; lit "id" := lit "H1";
               lit "name" := lit "gw-111" ]} ]} |}.

(** The payload the specification gives for the worked example. *)
Definition example_payload : RoutePayload :=
  {| interfaceName := lit "inside";
     selectedNetworks :=
       [ {| ref_type := lit "Network"; ref_id := lit "N1";
            ref_name := lit "net-101" |} ];
     gateway :=
       {| object := {| ref_type := lit "Host"; ref_id := lit "H1";
                       ref_name := lit "gw-111" |} |};
     metricValue := 1;
     route_type := lit "IPv4StaticRoute";
     isTunneled := false |}.

(** The two objects of the worked example when FMC lists them under the
    names the lookups ask for, the catalog that [get_existing_objects]
    loads from them, and the payload of the worked example's line on it. *)
Definition obj_10_1_1_0 : fmc_object :=
  {[ lit "name" := lit "obj-10.1.1.0"; lit "id" := lit "N1";
     lit "type" := lit "Network"; lit "value" := lit "10.1.1.0" ]}.

Definition obj_10_1_1_1 : fmc_object :=
  {[ lit "name" := lit "obj-10.1.1.1"; lit "id" := lit "H1";
     lit "type" := lit "Host"; lit "value" := lit "10.1.1.1" ]}.

Definition loaded_catalog : FMCRouteConverter :=
  {| network_objects := {[ lit "obj-10.1.1.0" := obj_10_1_1_0 ]};
     host_objects := {[ lit "obj-10.1.1.1" := obj_10_1_1_1 ]} |}.

Definition loaded_payload : RoutePayload :=
  {| interfaceName := lit "inside";
     selectedNetworks :=
       [ {| ref_type := lit "Network"; ref_id := lit "N1";
            ref_name := lit "obj-10.1.1.0" |} ];
     gateway :=
       {| object := {| ref_type := lit "Host"; ref_id := lit "H1";
                       ref_name := lit "obj-10.1.1.1" |} |};
     metricValue := 1;
     route_type := lit "IPv4StaticRoute";
     isTunneled := false |}.

(** A file of four route lines.  Against the catalog of the worked
    example the first resolves, the second names a network that is
    missing, the third and fourth name the same missing gateway. *)
Definition mixed_file : list str :=
  [ example_line;
    lit "route inside 10.1.2.0 255.255.255.0 10.1.1.1 1";
    lit "route outside 0.0.0.0 0.0.0.0 192.0.2.1 1";
    lit "route outside 10.9.0.0 255.255.0.0 192.0.2.1 5" ].

(** Ten copies of the worked example's payload, and a server that answers
    the first nine submissions and fails the tenth. *)
Definition ten_routes : list RoutePayload := replicate 10 example_payload.

Definition tenth_fails (i : nat) (_ : RoutePayload) : response unit :=
  if decide (i = 10) then RequestException (lit "503 Server Error")
  else Answered tt.

(** A run in which the network listing fails: the host objects are still
    loaded, and a route whose network is a host address is deployed. *)
Definition hosts_only_env : environment :=
  {| env_auth := Answered tt;
     env_devices :=
       Answered [ {[ lit "name" := lit "FTD_NAME"; lit "id" := lit "D1" ]} ];
     env_networks := RequestException (lit "500 Server Error");
     env_hosts :=
       Answered
         [ {[ lit "name" := lit "obj-10.1.1.1"; lit "id" := lit "H1";
              lit "type" := lit "Host" ]};
           {[ lit "name" := lit "obj-10.2.2.2"; lit "id" := lit "H2";
              lit "type" := lit "Host" ]} ];
     env_routes_file :=
       [ lit "route inside 10.2.2.2 255.255.255.255 10.1.1.1 1" ];
     env_confirm := true;
     env_post := λ _ _, Answered tt |}.

(** ** Vocabulary of the properties of whole runs *)

(** The requests sent along a trace, in order. *)
Definition requests (t : list event) : list request :=
  omap (λ ev, match ev with Http r => Some r | _ => None end) t.

(** The routes a run has to deploy: what [parse_and_prepare_routes]
    returns on the catalog that [get_existing_objects] loads, and none
    when it does not return. *)
Definition planned_routes (py_int : str → option Z) (env : environment)
  : list RoutePayload :=
  match result (fmc ← get_existing_objects init (env_networks env)
                        (env_hosts env);
                parse_and_prepare_routes py_int fmc (env_routes_file env)) with
  | Return routes => routes
  | _ => []
  end.

Definition is_progress (ev : event) : bool :=
  match ev with Out (DeployedRoute _ _ _) => true | _ => false end.

(** The number of progress lines along a trace. *)
Definition progresses (t : list event) : nat :=
  length (filter (λ ev, is_progress ev = true) t).

(** The names of the objects of a listing, in order. *)
Definition names (items : list fmc_object) : list str :=
  omap (λ obj, obj !! lit "name") items.

(** The objects of a listing request, none when it failed, and their
    names. *)
Definition listed (listing : response (list fmc_object)) : list fmc_object :=
  match listing with
  | Answered items => items
  | RequestException _ => []
  end.

Definition listed_names (listing : response (list fmc_object)) : list str :=
  names (listed listing).

(** A listed device with the two members [get_device_id] reads. *)
Definition device_complete (device : fmc_object) : Prop :=
  is_Some (device !! lit "name") ∧ is_Some (device !! lit "id").

(** The intents of the lines of a file that read as one, in order. *)
Definition intents (py_int : str → option Z) (lines : list str)
  : list RouteIntent :=
  omap (λ line, match result (parse_line py_int line) with
                | Return (Some intent) => Some intent
                | _ => None
                end) lines.

(** A listing whose named objects all carry a [type] and an [id]. *)
Definition listing_complete (listing : response (list fmc_object)) : Prop :=
  match listing with
  | Answered items =>
      Forall (λ obj, is_Some (obj !! lit "name") →
                     is_Some (obj !! lit "type") ∧ is_Some (obj !! lit "id"))
             items
  | RequestException _ => True
  end.

(** A piece of the program that only prints. *)
Definition quiet {A} (m : M A) : Prop := Forall is_diag (trace m).

(** What [main] does after the device was found, as one piece. *)
Definition main_from_catalog (py_int : str → option Z) (env : environment)
  : M unit :=
  print GettingExistingObjects;;
  fmc ← get_existing_objects init (env_networks env) (env_hosts env);
  print ParsingAndPreparing;;
  routes ← parse_and_prepare_routes py_int fmc (env_routes_file env);
  print (ReadyToDeploy (length routes));;
  emit Input;;
  (if env_confirm env then ret tt
   else print DeploymentCancelled;; sys_exit 0);;
  deploy_routes (env_post env) routes;;
  print DeploymentComplete.


(** A piece of the program that, when it exits, exits with a code in
    [exits], and when it raises, raises an exception in [raises]. *)
Definition within {A} (exits : Z → Prop) (raises : exn → Prop) (m : M A)
  : Prop :=
  match result m with
  | Return _ => True
  | Exit c => exits c
  | Raise e => raises e
  end.

(** The exceptions of a missing dictionary member that the program can
    meet: the three members it reads. *)
Definition member_error (e : exn) : Prop :=
  e = KeyError (lit "name") ∨ e = KeyError (lit "type")
  ∨ e = KeyError (lit "id").

(** A network entry for [10.1.1.0] that has no [id], the gateway entry of
    the worked example, and the catalog that holds the two. *)
Definition entry_without_id : fmc_object :=
  {[ lit "type" := lit "Network"; lit "name" := lit "obj-10.1.1.0" ]}.

Definition gateway_entry : fmc_object :=
  {[ lit "type" := lit "Host"; lit "id" := lit "H1";
     lit "name" := lit "gw-111" ]}.

Definition catalog_without_id : FMCRouteConverter :=
  {| network_objects := {[ lit "obj-10.1.1.0" := entry_without_id ]};
     host_objects := {[ lit "obj-10.1.1.1" := gateway_entry ]} |}.

(** * Properties *)

(** ** The monad *)

Lemma mbind_unfold {A B} (m : M A) (k : A → M B) : m ≫= k = bind m k.
Proof. reflexivity. Qed.

Lemma bind_Return {A B} t (a : A) (k : A → M B) :
  bind (t, Return a) k = (t ++ trace (k a), result (k a)).
Proof. unfold bind, trace, result. by destruct (k a). Qed.

Lemma bind_Exit {A B} t c (k : A → M B) : bind (t, Exit c) k = (t, Exit c).
Proof. reflexivity. Qed.

Lemma bind_Raise {A B} t e (k : A → M B) : bind (t, Raise e) k = (t, Raise e).
Proof. reflexivity. Qed.

Lemma bind_ret_l {A B} (a : A) (k : A → M B) : bind (ret a) k = k a.
Proof. unfold ret. rewrite bind_Return. by destruct (k a). Qed.

Lemma bind_emit {B} e (k : unit → M B) :
  bind (emit e) k = (e :: trace (k tt), result (k tt)).
Proof. unfold emit. by rewrite bind_Return. Qed.

Lemma bind_print {B} d (k : unit → M B) :
  bind (print d) k = (Out d :: trace (k tt), result (k tt)).
Proof. apply bind_emit. Qed.

Lemma bind_assoc {A B C} (m : M A) (k : A → M B) (h : B → M C) :
  bind (bind m k) h = bind m (λ a, bind (k a) h).
Proof.
  destruct m as [t [a| |]]; try reflexivity.
  unfold bind at 2 3. destruct (k a) as [t' [b| |]]; simpl; try reflexivity.
  destruct (h b). by rewrite app_assoc.
Qed.

Lemma bind_ext {A B} (m : M A) (k k' : A → M B) :
  (∀ a, k a = k' a) → bind m k = bind m k'.
Proof. intros E. destruct m as [t [a| |]]; try reflexivity. simpl. by rewrite E. Qed.

Lemma for_each_nil {A S} (body : S → A → M S) s : for_each body [] s = ret s.
Proof. reflexivity. Qed.

Lemma for_each_cons {A S} (body : S → A → M S) x xs s :
  for_each body (x :: xs) s = bind (body s x) (for_each body xs).
Proof. reflexivity. Qed.

Lemma for_each_app {A S} (body : S → A → M S) xs ys s :
  for_each body (xs ++ ys) s = bind (for_each body xs s) (for_each body ys).
Proof.
  revert s. induction xs as [|x xs IH]; intros s.
  - by rewrite app_nil_l, for_each_nil, bind_ret_l.
  - rewrite <- app_comm_cons, !for_each_cons, bind_assoc.
    apply bind_ext. intros s'. apply IH.
Qed.

(** ** Sorting strings *)

#[global] Instance str_order_refl : Reflexive str_order.
Proof.
  intros a. unfold str_order. induction a as [|x a IH]; [done|].
  simpl. by rewrite N.ltb_irrefl, N.eqb_refl.
Qed.

#[global] Instance str_order_total : Total str_order.
Proof.
  intros a. unfold str_order.
  induction a as [|x a IH]; intros [|y b]; simpl; auto.
  destruct (N.ltb_spec x y), (N.ltb_spec y x); auto; try lia.
  assert (x = y) as -> by lia. rewrite N.eqb_refl. apply IH.
Qed.

#[global] Instance str_order_trans : Transitive str_order.
Proof.
  intros a. unfold str_order.
  induction a as [|x a IH]; intros [|y b] [|z c]; simpl; auto; try done.
  destruct (N.ltb_spec x y), (N.ltb_spec y z), (N.ltb_spec x z);
    try done; try lia;
    destruct (N.eqb_spec x y), (N.eqb_spec y z), (N.eqb_spec x z);
    try done; try lia.
  apply IH.
Qed.

#[global] Instance str_order_antisymm : AntiSymm (=) str_order.
Proof.
  intros a. unfold str_order.
  induction a as [|x a IH]; intros [|y b]; simpl; try done.
  destruct (N.ltb_spec x y), (N.ltb_spec y x); try done; try lia.
  - destruct (N.eqb_spec y x); [lia | done].
  - destruct (N.eqb_spec x y); [lia | done].
  - destruct (N.eqb_spec x y), (N.eqb_spec y x); try done.
    intros. f_equal; auto.
Qed.

Lemma insert_sorted_Permutation x l : insert_sorted x l ≡ₚ x :: l.
Proof.
  induction l as [|y l IH]; simpl; [done|].
  destruct (str_le x y); [done|]. rewrite IH. apply Permutation_swap.
Qed.

Lemma sorted_Permutation l : sorted l ≡ₚ l.
Proof.
  induction l as [|x l IH]; simpl; [done|].
  by rewrite insert_sorted_Permutation, IH.
Qed.

Lemma Sorted_insert_sorted x l :
  Sorted str_order l → Sorted str_order (insert_sorted x l).
Proof.
  induction 1 as [|y l Hl IH Hhd]; simpl.
  - repeat constructor.
  - destruct (str_le x y) eqn:E.
    + constructor; [by constructor | by constructor].
    + assert (str_order y x) as Hyx.
      { destruct (total str_order x y) as [H|H]; [|done].
        unfold str_order in H. congruence. }
      constructor; [done|].
      destruct Hhd as [|z l Hyz]; simpl.
      * by constructor.
      * destruct (str_le x z); by constructor.
Qed.

Lemma Sorted_sorted l : Sorted str_order (sorted l).
Proof.
  induction l as [|x l IH]; simpl; [constructor|].
  by apply Sorted_insert_sorted.
Qed.

(** Whatever the algorithm, the sorted arrangement of a list is unique:
    [sorted] returns what Python's [sorted] returns. *)
Lemma sorted_unique l l' :
  l' ≡ₚ l → Sorted str_order l' → l' = sorted l.
Proof.
  intros Hp Hs. apply (Sorted_unique str_order); [done| |].
  - apply Sorted_sorted.
  - by rewrite Hp, sorted_Permutation.
Qed.

Lemma elem_of_sorted d l : d ∈ sorted l ↔ d ∈ l.
Proof. by rewrite sorted_Permutation. Qed.

Lemma NoDup_sorted l : NoDup l → NoDup (sorted l).
Proof. by rewrite sorted_Permutation. Qed.

(** ** Tokens *)

(** A token of [split] is not empty and holds no whitespace. *)
Lemma split_from_tokens cur s :
  Forall (λ c, is_space c = false) cur →
  Forall (λ tok, tok ≠ [] ∧ Forall (λ c, is_space c = false) tok)
         (split_from cur s).
Proof.
  revert cur.
  induction s as [|c s IH]; intros cur Hcur; simpl.
  - destruct cur as [|x cur]; [constructor|].
    constructor; [|constructor]. split.
    + intros H. apply (f_equal length) in H.
      rewrite length_rev in H. discriminate.
    + by apply Forall_rev.
  - destruct (is_space c) eqn:Ec.
    + destruct cur as [|x cur]; [by apply IH|].
      constructor; [|by apply IH]. split.
      * intros H. apply (f_equal length) in H.
        rewrite length_rev in H. discriminate.
      * by apply Forall_rev.
    + apply IH. by constructor.
Qed.

Lemma split_tokens s :
  Forall (λ tok, tok ≠ [] ∧ Forall (λ c, is_space c = false) tok) (split s).
Proof. by apply split_from_tokens. Qed.

(** Leading blanks, a tab between two tokens, runs of spaces and the end
    of line are all dropped. *)
Example split_example_line :
  split (strip (lit "  route" ++ [9%N] ++
                lit "inside   10.1.1.0 255.255.255.0 10.1.1.1 1" ++
                [13%N; 10%N]))
  = [lit "route"; lit "inside"; lit "10.1.1.0"; lit "255.255.255.0";
     lit "10.1.1.1"; lit "1"].
Proof. vm_compute. reflexivity. Qed.

(** ** The object catalog *)

Ltac msimpl :=
  repeat first
    [ rewrite mbind_unfold
    | rewrite bind_print
    | rewrite bind_emit
    | rewrite bind_ret_l
    | rewrite bind_Return
    | rewrite bind_Exit
    | rewrite bind_Raise ].

Lemma add_network_objects_run items cache :
  for_each add_network_object items cache
  = (found_trace FoundNetworkObject items, Return (foldl index_by_name cache items)).
Proof.
  revert cache. induction items as [|obj items IH]; intros cache; [done|].
  rewrite for_each_cons. unfold add_network_object, found_trace.
  simpl. unfold index_by_name at 2.
  destruct (obj !! lit "name") as [name|] eqn:E; msimpl; by rewrite IH.
Qed.

Lemma add_host_objects_run items cache :
  for_each add_host_object items cache
  = (found_trace FoundHostObject items, Return (foldl index_by_name cache items)).
Proof.
  revert cache. induction items as [|obj items IH]; intros cache; [done|].
  rewrite for_each_cons. unfold add_host_object, found_trace.
  simpl. unfold index_by_name at 2.
  destruct (obj !! lit "name") as [name|] eqn:E; msimpl; by rewrite IH.
Qed.

Lemma get_existing_objects_run self networks hosts :
  get_existing_objects self networks hosts
  = ([Out FetchingNetworkObjects; Http ListNetworks]
       ++ listing_trace FoundNetworkObject ErrorGettingNetworkObjects networks
       ++ [Out FetchingHostObjects; Http ListHosts]
       ++ listing_trace FoundHostObject ErrorGettingHostObjects hosts
       ++ [Out (TotalObjectsFound
                  (size (loaded networks (network_objects self)))
                  (size (loaded hosts (host_objects self))))],
     Return {| network_objects := loaded networks (network_objects self);
               host_objects := loaded hosts (host_objects self) |}).
Proof.
  unfold get_existing_objects.
  destruct networks as [ns|e], hosts as [hs|e']; simpl;
    rewrite ?add_network_objects_run, ?add_host_objects_run;
    msimpl; simpl; msimpl; simpl;
    rewrite ?add_network_objects_run, ?add_host_objects_run;
    msimpl; simpl; msimpl; simpl; reflexivity.
Qed.

Lemma last_named_cons name obj items :
  last_named name (obj :: items)
  = match last_named name items with
    | Some o => Some o
    | None => if decide (obj !! lit "name" = Some name) then Some obj else None
    end.
Proof.
  unfold last_named. rewrite filter_cons.
  destruct (decide (obj !! lit "name" = Some name)); [|by destruct (last _)].
  destruct (filter _ items) as [|o l] eqn:E; [done|].
  rewrite last_cons. by destruct (last (o :: l)) eqn:E'.
Qed.

Lemma lookup_loaded_items items cache key :
  foldl index_by_name cache items !! key
  = match last_named key items with
    | Some obj => Some obj
    | None => cache !! key
    end.
Proof.
  revert cache. induction items as [|obj items IH]; intros cache; [done|].
  simpl. rewrite IH, last_named_cons.
  destruct (last_named key items); [done|].
  unfold index_by_name. destruct (obj !! lit "name") as [name|] eqn:E.
  - destruct (decide (Some name = Some key)) as [[= ->]|Hne].
    + by rewrite lookup_insert_eq.
    + rewrite lookup_insert_ne; [done | congruence].
  - by destruct (decide (None = Some key)).
Qed.

Lemma last_named_name name items obj :
  last_named name items = Some obj → obj !! lit "name" = Some name.
Proof.
  unfold last_named. intros H. apply last_Some_elem_of in H.
  by apply list_elem_of_filter in H as [? _].
Qed.

Lemma keyed_by_name_loaded listing cache :
  keyed_by_name cache → keyed_by_name (loaded listing cache).
Proof.
  intros Hc key obj. destruct listing as [items|e]; simpl; [|apply Hc].
  rewrite lookup_loaded_items.
  destruct (last_named key items) eqn:E.
  - intros [= <-]. by eapply last_named_name.
  - apply Hc.
Qed.

Lemma keyed_by_name_empty : keyed_by_name ∅.
Proof. intros key obj. by rewrite lookup_empty. Qed.

Lemma find_or_create_object_lookup self value mask :
  find_or_create_object self value mask
  = match partition_of self mask !! (lit "obj-" ++ value) with
    | Some obj =>
        match obj !! lit "name" with
        | Some name => ([Out (FoundExistingObject name value)], Return (Some obj))
        | None => ([], Raise (KeyError (lit "name")))
        end
    | None => ([Out (NoExistingObject value)], Return None)
    end.
Proof.
  unfold find_or_create_object, partition_of.
  destruct (is_host mask);
    (destruct (_ !! (lit "obj-" ++ value)) as [obj|]; [|by msimpl]);
    unfold getitem; destruct (obj !! lit "name"); by msimpl.
Qed.

Lemma result_find_or_create_object_keyed self value mask :
  keyed_by_name (partition_of self mask) →
  result (find_or_create_object self value mask)
  = Return (partition_of self mask !! (lit "obj-" ++ value)).
Proof.
  intros Hk. rewrite find_or_create_object_lookup.
  destruct (_ !! (lit "obj-" ++ value)) as [obj|] eqn:E; [|done].
  by rewrite (Hk _ _ E).
Qed.

(** C1, counterexample: a network object of value [10.1.1.0] and a host
    object of value [10.1.1.1] are loaded, and looking either address up in
    its partition finds nothing: the caches are keyed by object name. *)
Lemma C1_lookup_by_value_misses :
  net_101 !! lit "value" = Some (lit "10.1.1.0")
  ∧ gw_111 !! lit "value" = Some (lit "10.1.1.1")
  ∧ result (fmc ← get_existing_objects init (Answered [net_101]) (Answered [gw_111]);
            find_or_create_object fmc (lit "10.1.1.0") (Some (lit "255.255.255.0")))
    = Return None
  ∧ result (fmc ← get_existing_objects init (Answered [net_101]) (Answered [gw_111]);
            find_or_create_object fmc (lit "10.1.1.1") None)
    = Return None.
Proof. vm_compute. repeat split; reflexivity. Qed.

(** C1, as amended: after the catalog is loaded, looking an address [value]
    up returns the object of the matching listing (hosts when the mask is
    absent or all ones, networks otherwise) whose name is the string
    [obj-] followed by [value], the last listed one if several carry that
    name, and nothing when no listed object has that name.  The key is
    the object's name, compared by string equality; the object's address
    value is not consulted. *)
Theorem C1_catalog_indexed_by_name networks hosts value mask :
  result (fmc ← get_existing_objects init (Answered networks) (Answered hosts);
          find_or_create_object fmc value mask)
  = Return (last_named (lit "obj-" ++ value)
              (if is_host mask then hosts else networks)).
Proof.
  rewrite mbind_unfold, get_existing_objects_run, bind_Return.
  unfold result at 1. simpl snd.
  rewrite result_find_or_create_object_keyed.
  - unfold partition_of. simpl.
    destruct (is_host mask); rewrite lookup_loaded_items, lookup_empty;
      by destruct (last_named _ _).
  - unfold partition_of. simpl.
    destruct (is_host mask);
      apply (keyed_by_name_loaded (Answered _)), keyed_by_name_empty.
Qed.

(** C8: whatever the two listing requests come to, [get_existing_objects]
    returns normally.  A failed request is logged and leaves its cache as
    it was, the host listing is requested even after the network listing
    failed, each answered listing is loaded, and whatever follows the call
    runs with the resulting catalog. *)
Theorem C8_catalog_load_is_not_fatal self networks hosts :
  ∃ fmc,
    result (get_existing_objects self networks hosts) = Return fmc
    ∧ network_objects fmc = loaded networks (network_objects self)
    ∧ host_objects fmc = loaded hosts (host_objects self)
    ∧ (∀ e, networks = RequestException e →
         Out (ErrorGettingNetworkObjects e)
           ∈ trace (get_existing_objects self networks hosts)
         ∧ network_objects fmc = network_objects self)
    ∧ (∀ e, hosts = RequestException e →
         Out (ErrorGettingHostObjects e)
           ∈ trace (get_existing_objects self networks hosts)
         ∧ host_objects fmc = host_objects self)
    ∧ Http ListHosts ∈ trace (get_existing_objects self networks hosts)
    ∧ ∀ B (k : FMCRouteConverter → M B),
        get_existing_objects self networks hosts ≫= k
        = (trace (get_existing_objects self networks hosts) ++ trace (k fmc),
           result (k fmc)).
Proof.
  rewrite get_existing_objects_run. eexists. split; [reflexivity|].
  simpl. repeat split.
  - subst. simpl. set_solver.
  - by subst.
  - subst. simpl. rewrite !elem_of_cons, !elem_of_app. set_solver.
  - by subst.
  - rewrite !elem_of_cons, !elem_of_app. set_solver.
  - intros B k. unfold trace, result. by destruct (k _).
Qed.

(** ** Parsing a line *)

Lemma route_shape_tokens line :
  route_shape line
  ↔ ∃ i n m g k, split (strip line) = [lit "route"; i; n; m; g; k].
Proof.
  unfold route_shape. split.
  - intros [Hlen Hhd].
    destruct (split (strip line)) as [|a [|b [|c [|d [|e [|f [|h rest]]]]]]];
      try discriminate.
    simpl in Hhd. injection Hhd as ->. by exists b, c, d, e, f.
  - intros (i & n & m & g & k & ->). done.
Qed.

Section Parser.

Variable py_int : str → option Z.

Lemma parse_line_route line i n m g k :
  split (strip line) = [lit "route"; i; n; m; g; k] →
  parse_line py_int line
  = match py_int k with
    | Some z =>
        ret (Some {| intent_interface := i; intent_network := n;
                     intent_netmask := m; intent_gateway := g;
                     intent_metric := z |})
    | None => raise ValueError
    end.
Proof.
  intros E. unfold parse_line. rewrite E.
  destruct (decide (lit "route" = lit "route")); done.
Qed.

Lemma parse_line_other line :
  ¬ route_shape line → parse_line py_int line = ret None.
Proof.
  rewrite route_shape_tokens. intros H. unfold parse_line.
  destruct (split (strip line)) as [|a [|b [|c [|d [|e [|f [|h rest]]]]]]];
    try done.
  destruct (decide (a = lit "route")) as [->|]; [|done].
  destruct H. by exists b, c, d, e, f.
Qed.

(** A line is skipped, read as an intent, or stops the run. *)
Lemma parse_line_cases line :
  parse_line py_int line = ret None
  ∨ parse_line py_int line = raise ValueError
  ∨ ∃ intent, parse_line py_int line = ret (Some intent).
Proof.
  destruct (decide (route_shape line)) as [H|H].
  - apply route_shape_tokens in H as (i & n & m & g & k & E).
    rewrite (parse_line_route _ _ _ _ _ _ E).
    destruct (py_int k); eauto.
  - left. by apply parse_line_other.
Qed.

End Parser.

(** C7, counterexample: a line of six tokens that starts with [route]
    yields no intent when its last token is not a number; reading it raises
    [ValueError]. *)
Lemma C7_six_tokens_without_intent :
  length (split (strip bad_metric_line)) = 6
  ∧ head (split (strip bad_metric_line)) = Some (lit "route")
  ∧ int_literal (lit "abc") = None
  ∧ parse_line int_literal bad_metric_line = ([], Raise ValueError).
Proof. vm_compute. repeat split; reflexivity. Qed.

(** C7, as amended: a line yields exactly one route intent, its fields the
    tokens at positions 1 to 5 in order, if and only if after trimming and
    splitting at whitespace it has exactly six tokens, the first is the
    keyword [route], and the sixth is read by [int] as an integer.  A line
    of that shape whose sixth token [int] rejects raises [ValueError], and
    every line of another shape yields nothing. *)
Theorem C7_parse_line_yields_intent (py_int : str → option Z) line :
  (∀ intent,
     parse_line py_int line = ret (Some intent)
     ↔ route_shape line
       ∧ split (strip line) !! 1 = Some (intent_interface intent)
       ∧ split (strip line) !! 2 = Some (intent_network intent)
       ∧ split (strip line) !! 3 = Some (intent_netmask intent)
       ∧ split (strip line) !! 4 = Some (intent_gateway intent)
       ∧ (split (strip line) !! 5) ≫= py_int = Some (intent_metric intent))
  ∧ (route_shape line ∧ (split (strip line) !! 5) ≫= py_int = None
     ↔ parse_line py_int line = raise ValueError)
  ∧ (¬ route_shape line ↔ parse_line py_int line = ret None).
Proof.
  destruct (decide (route_shape line)) as [H|H].
  - pose proof H as (i & n & m & g & k & E)%route_shape_tokens.
    rewrite (parse_line_route _ _ _ _ _ _ _ E). rewrite E. simpl.
    destruct (py_int k) as [z|] eqn:Ek.
    + split; [|split].
      * intros [ii nn mm gg zz]. simpl. split.
        -- intros [= <- <- <- <- <-]. done.
        -- intros (_ & [= <-] & [= <-] & [= <-] & [= <-] & [= <-]). done.
      * split; [intros [_ ?]|]; done.
      * split; [done | discriminate].
    + split; [|split].
      * intros intent. split; [discriminate | intros (_&_&_&_&_&?); done].
      * done.
      * split; [done | discriminate].
  - rewrite (parse_line_other _ _ H). split; [|split].
    + intros intent. split; [discriminate | intros [? _]; done].
    + split; [intros [? _]; done | discriminate].
    + done.
Qed.

(** ** Resolving an intent *)

Lemma result_bind {A B} (m : M A) (k : A → M B) :
  result (bind m k)
  = match result m with
    | Return a => result (k a)
    | Exit c => Exit c
    | Raise e => Raise e
    end.
Proof. destruct m as [t [a| |]]; try done. by rewrite bind_Return. Qed.

Lemma truthy_named obj name :
  obj !! lit "name" = Some name → truthy (Some obj) = Some obj.
Proof.
  intros H. unfold truthy. destruct (decide (obj = ∅)) as [->|]; [|done].
  by rewrite lookup_empty in H.
Qed.

(** Every path through lines 125-135. *)
Lemma resolve_run self intent :
  resolve self intent
  = let g := intent_gateway intent in
    let n := intent_network intent in
    let m := intent_netmask intent in
    match host_objects self !! (lit "obj-" ++ g) with
    | None =>
        ([Out (NoExistingObject g)],
         Return (MissingReference (gateway_descriptor g)))
    | Some gw_obj =>
        match gw_obj !! lit "name" with
        | None => ([], Raise (KeyError (lit "name")))
        | Some gname =>
            match partition_of self (Some m) !! (lit "obj-" ++ n) with
            | None =>
                ([Out (FoundExistingObject gname g); Out (NoExistingObject n)],
                 Return (MissingReference (network_descriptor n m)))
            | Some net_obj =>
                match net_obj !! lit "name" with
                | None =>
                    ([Out (FoundExistingObject gname g)],
                     Raise (KeyError (lit "name")))
                | Some nname =>
                    ([Out (FoundExistingObject gname g);
                      Out (FoundExistingObject nname n)],
                     Return (Resolved net_obj gw_obj))
                end
            end
        end
    end.
Proof.
  unfold resolve. rewrite !find_or_create_object_lookup.
  change (partition_of self None) with (host_objects self).
  cbv zeta.
  destruct (host_objects self !! _) as [gw_obj|]; [|by msimpl].
  destruct (gw_obj !! lit "name") as [gname|] eqn:Eg; [|by msimpl].
  msimpl. rewrite (truthy_named _ _ Eg).
  destruct (partition_of self _ !! _) as [net_obj|]; [|by msimpl].
  destruct (net_obj !! lit "name") as [nname|] eqn:En; [|by msimpl].
  msimpl. rewrite (truthy_named _ _ En). by msimpl.
Qed.

(** C5: [find_or_create_object] reads the host cache exactly when the mask
    is absent or [255.255.255.255], and the network cache otherwise.
    Resolving an intent looks the gateway up in the host cache, whatever
    the netmask, and then the network in the host cache when the netmask is
    [255.255.255.255] and in the network cache otherwise: the equation
    gives every path through lines 125-135, with the cache and the key of
    each lookup.  In particular what the resolution comes to depends on
    the catalog through these two entries only. *)
Theorem C5_partition_by_mask self :
  (∀ value mask,
     find_or_create_object self value mask
     = lookup_object
         (if decide (mask = None ∨ mask = Some (lit "255.255.255.255"))
          then host_objects self else network_objects self) value)
  ∧ (∀ intent,
       resolve self intent
       = let g := intent_gateway intent in
         let n := intent_network intent in
         let m := intent_netmask intent in
         match host_objects self !! (lit "obj-" ++ g) with
         | None =>
             ([Out (NoExistingObject g)],
              Return (MissingReference (gateway_descriptor g)))
         | Some gw_obj =>
             match gw_obj !! lit "name" with
             | None => ([], Raise (KeyError (lit "name")))
             | Some gname =>
                 match (if decide (m = lit "255.255.255.255")
                        then host_objects self else network_objects self)
                         !! (lit "obj-" ++ n) with
                 | None =>
                     ([Out (FoundExistingObject gname g);
                       Out (NoExistingObject n)],
                      Return (MissingReference (network_descriptor n m)))
                 | Some net_obj =>
                     match net_obj !! lit "name" with
                     | None =>
                         ([Out (FoundExistingObject gname g)],
                          Raise (KeyError (lit "name")))
                     | Some nname =>
                         ([Out (FoundExistingObject gname g);
                           Out (FoundExistingObject nname n)],
                          Return (Resolved net_obj gw_obj))
                     end
                 end
             end
         end)
  ∧ (∀ self' intent,
       host_objects self !! (lit "obj-" ++ intent_gateway intent)
       = host_objects self' !! (lit "obj-" ++ intent_gateway intent) →
       (if decide (intent_netmask intent = lit "255.255.255.255")
        then host_objects self else network_objects self)
         !! (lit "obj-" ++ intent_network intent)
       = (if decide (intent_netmask intent = lit "255.255.255.255")
          then host_objects self' else network_objects self')
           !! (lit "obj-" ++ intent_network intent) →
       resolve self intent = resolve self' intent).
Proof.
  assert (∀ (s : FMCRouteConverter) m,
            partition_of s (Some m)
            = if decide (m = lit "255.255.255.255")
              then host_objects s else network_objects s) as Hpart.
  { intros s m. unfold partition_of, is_host.
    destruct (decide (m = lit "255.255.255.255")) as [E|E].
    - by rewrite bool_decide_eq_true_2.
    - by rewrite bool_decide_eq_false_2. }
  split; [|split].
  - intros value mask. rewrite find_or_create_object_lookup.
    unfold lookup_object, partition_of, is_host.
    destruct mask as [m|].
    + destruct (decide (m = lit "255.255.255.255")) as [->|Hm].
      * rewrite bool_decide_eq_true_2 by done.
        destruct (decide _) as [_|[]]; [done | by right].
      * rewrite bool_decide_eq_false_2 by done.
        destruct (decide _) as [[|[= ?]]|]; done.
    + destruct (decide _) as [_|[]]; [done | by left].
  - intros intent. rewrite resolve_run. cbv zeta. by rewrite Hpart.
  - intros self' intent Hg Hn. rewrite !resolve_run. cbv zeta.
    rewrite <- Hg, !Hpart, <- Hn. done.
Qed.

(** ** One line of the file *)

Section Lines.

Variable py_int : str → option Z.

Lemma process_line_intent self acc line intent :
  parse_line py_int line = ret (Some intent) →
  process_line py_int self acc line
  = bind (resolve self intent) (after_resolve acc intent).
Proof.
  intros E. unfold process_line. rewrite mbind_unfold, E, bind_ret_l.
  rewrite mbind_unfold. apply bind_ext. by intros [].
Qed.

Lemma process_line_skip self acc line :
  parse_line py_int line = ret None →
  process_line py_int self acc line = ret acc.
Proof.
  intros E. unfold process_line. by rewrite mbind_unfold, E, bind_ret_l.
Qed.

Lemma process_line_raise self acc line :
  parse_line py_int line = raise ValueError →
  process_line py_int self acc line = raise ValueError.
Proof. intros E. unfold process_line. by rewrite mbind_unfold, E. Qed.

Lemma build_route_run intent net_obj gw_obj nt ni nn gt gi gn :
  net_obj !! lit "type" = Some nt →
  net_obj !! lit "id" = Some ni →
  net_obj !! lit "name" = Some nn →
  gw_obj !! lit "type" = Some gt →
  gw_obj !! lit "id" = Some gi →
  gw_obj !! lit "name" = Some gn →
  build_route intent net_obj gw_obj
  = ret {| interfaceName := intent_interface intent;
           selectedNetworks :=
             [ {| ref_type := nt; ref_id := ni; ref_name := nn |} ];
           gateway :=
             {| object := {| ref_type := gt; ref_id := gi; ref_name := gn |} |};
           metricValue := intent_metric intent;
           route_type := lit "IPv4StaticRoute";
           isTunneled := false |}.
Proof.
  intros H1 H2 H3 H4 H5 H6. unfold build_route, getitem.
  rewrite H1, H2, H3, H4, H5, H6. by msimpl.
Qed.

End Lines.

Ltac intent_simpl :=
  cbv zeta;
  cbn [intent_interface intent_network intent_netmask intent_gateway
       intent_metric].

(** C10: on a route line the gateway is looked up first, and when it is
    not in the host cache the iteration ends there: the only diagnostic is
    the gateway's, nothing is said of the network whatever the caches hold
    for it, the accumulated routes are unchanged and the one descriptor
    added is the gateway's, so the network's descriptor is in the set
    afterwards only if it was there before.  A file of that single line is
    rejected with the gateway's descriptor alone.  When the gateway is
    found, its diagnostic comes first in the trace of the iteration. *)
Theorem C10_gateway_before_network (py_int : str → option Z)
    self acc line i n m g k z :
  split (strip line) = [lit "route"; i; n; m; g; k] →
  py_int k = Some z →
  (host_objects self !! (lit "obj-" ++ g) = None →
   process_line py_int self acc line
   = ([Out (NoExistingObject g)],
      Return (acc.1, acc.2 ∪ {[ gateway_descriptor g ]}))
   ∧ (network_descriptor n m ∈ acc.2 ∪ {[ gateway_descriptor g ]}
      ↔ network_descriptor n m ∈ acc.2)
   ∧ parse_and_prepare_routes py_int self [line]
     = ([Out ParsingRoutes; Out (NoExistingObject g); Out ObjectsNotFound;
         Out (MissingItem (gateway_descriptor g)); Out PleaseCreate],
        Exit 1))
  ∧ (∀ gw_obj gname,
       host_objects self !! (lit "obj-" ++ g) = Some gw_obj →
       gw_obj !! lit "name" = Some gname →
       ∃ t, trace (process_line py_int self acc line)
            = Out (FoundExistingObject gname g) :: t).
Proof.
  intros E Ek.
  pose proof (parse_line_route py_int _ _ _ _ _ _ E) as Hp. rewrite Ek in Hp.
  assert (∀ acc', process_line py_int self acc' line
                  = bind (resolve self
                            {| intent_interface := i; intent_network := n;
                               intent_netmask := m; intent_gateway := g;
                               intent_metric := z |})
                         (after_resolve acc'
                            {| intent_interface := i; intent_network := n;
                               intent_netmask := m; intent_gateway := g;
                               intent_metric := z |})) as Hl.
  { intros acc'. by apply process_line_intent. }
  split.
  - intros Hmiss.
    assert (∀ acc', process_line py_int self acc' line
            = ([Out (NoExistingObject g)],
               Return (acc'.1, acc'.2 ∪ {[ gateway_descriptor g ]}))) as Hrun.
    { intros acc'. rewrite Hl, resolve_run. intent_simpl.
      rewrite Hmiss. by msimpl. }
    split; [done|]. split.
    + rewrite elem_of_union, elem_of_singleton.
      split; [intros [?|?]; [done|discriminate] | by left].
    + unfold parse_and_prepare_routes, scan, start.
      rewrite !mbind_unfold, bind_print, for_each_cons, Hrun.
      rewrite bind_Return, for_each_nil. unfold ret.
      cbn [trace result fst snd app]. rewrite bind_Return.
      cbn [fst snd]. rewrite (left_id_L ∅ (∪)).
      destruct (decide (_ ≠ _)) as [_|Hne].
      * rewrite elements_singleton. cbn [sorted insert_sorted for_each].
        by msimpl.
      * destruct Hne. apply non_empty_singleton_L.
  - intros gw_obj gname Hhit Hname. rewrite Hl, resolve_run. intent_simpl.
    rewrite Hhit, Hname. unfold trace.
    destruct (partition_of self _ !! _) as [net_obj|].
    + destruct (net_obj !! lit "name"); [|by eexists].
      rewrite bind_Return. by eexists.
    + rewrite bind_Return. by eexists.
Qed.

(** C10, witness: the worked example's line against an empty catalog. *)
Lemma C10_gateway_before_network_witness :
  (host_objects init !! (lit "obj-" ++ lit "10.1.1.1") = None →
   process_line int_literal init start example_line
   = ([Out (NoExistingObject (lit "10.1.1.1"))],
      Return (start.1, start.2 ∪ {[ gateway_descriptor (lit "10.1.1.1") ]}))
   ∧ (network_descriptor (lit "10.1.1.0") (lit "255.255.255.0")
        ∈ start.2 ∪ {[ gateway_descriptor (lit "10.1.1.1") ]}
      ↔ network_descriptor (lit "10.1.1.0") (lit "255.255.255.0")
          ∈ start.2)
   ∧ parse_and_prepare_routes int_literal init [example_line]
     = ([Out ParsingRoutes; Out (NoExistingObject (lit "10.1.1.1"));
         Out ObjectsNotFound;
         Out (MissingItem (gateway_descriptor (lit "10.1.1.1")));
         Out PleaseCreate],
        Exit 1))
  ∧ (∀ gw_obj gname,
       host_objects init !! (lit "obj-" ++ lit "10.1.1.1") = Some gw_obj →
       gw_obj !! lit "name" = Some gname →
       ∃ t, trace (process_line int_literal init start example_line)
            = Out (FoundExistingObject gname (lit "10.1.1.1")) :: t).
Proof.
  apply (C10_gateway_before_network int_literal init start example_line
           (lit "inside") (lit "10.1.1.0") (lit "255.255.255.0")
           (lit "10.1.1.1") (lit "1") 1%Z).
  - vm_compute. reflexivity.
  - vm_compute. reflexivity.
Defined.

(** ** Building the payload *)

(** C6, as amended: for a route line whose two references resolve to
    catalog entries with their [type], [id] and [name], the iteration
    appends exactly one payload: type [IPv4StaticRoute], not tunneled, one
    selected network and a gateway object carrying the three members of
    the network's and of the gateway's entry, the interface token, and the
    integer [int] read from the metric token, whatever its value.  On a
    catalog that [get_existing_objects] loaded on a fresh converter the two
    names of the payload are [obj-] followed by the network and by the
    gateway address of the line, whatever FMC listed: no such catalog gives
    a payload that names [net-101] and [gw-111] for the worked example's
    line. *)
Theorem C6_route_payload (py_int : str → option Z)
    self acc line i n m g k z net_obj gw_obj nt ni nn gt gi gn :
  split (strip line) = [lit "route"; i; n; m; g; k] →
  py_int k = Some z →
  result (resolve self {| intent_interface := i; intent_network := n;
                          intent_netmask := m; intent_gateway := g;
                          intent_metric := z |})
  = Return (Resolved net_obj gw_obj) →
  net_obj !! lit "type" = Some nt →
  net_obj !! lit "id" = Some ni →
  net_obj !! lit "name" = Some nn →
  gw_obj !! lit "type" = Some gt →
  gw_obj !! lit "id" = Some gi →
  gw_obj !! lit "name" = Some gn →
  result (process_line py_int self acc line)
  = Return
      (acc.1 ++
         [ {| interfaceName := i;
              selectedNetworks :=
                [ {| ref_type := nt; ref_id := ni; ref_name := nn |} ];
              gateway :=
                {| object :=
                     {| ref_type := gt; ref_id := gi; ref_name := gn |} |};
              metricValue := z;
              route_type := lit "IPv4StaticRoute";
              isTunneled := false |} ],
       acc.2)
  ∧ (∀ networks hosts,
       result (get_existing_objects init networks hosts) = Return self →
       nn = lit "obj-" ++ n ∧ gn = lit "obj-" ++ g).
Proof.
  intros E Ek Hres H1 H2 H3 H4 H5 H6. split.
  - pose proof (parse_line_route py_int _ _ _ _ _ _ E) as Hp.
    rewrite Ek in Hp.
    rewrite (process_line_intent _ _ _ _ _ Hp), result_bind, Hres.
    unfold after_resolve.
    rewrite mbind_unfold,
      (build_route_run _ _ _ _ _ _ _ _ _ H1 H2 H3 H4 H5 H6).
    by msimpl.
  - intros networks hosts Hload.
    rewrite get_existing_objects_run in Hload. cbn [result snd] in Hload.
    assert (keyed_by_name (network_objects self)) as Kn.
    { injection Hload as <-.
      apply keyed_by_name_loaded, keyed_by_name_empty. }
    assert (keyed_by_name (host_objects self)) as Kh.
    { injection Hload as <-.
      apply keyed_by_name_loaded, keyed_by_name_empty. }
    clear Hload.
    assert (host_objects self !! (lit "obj-" ++ g) = Some gw_obj
            ∧ partition_of self (Some m) !! (lit "obj-" ++ n) = Some net_obj)
      as [Eg En].
    { revert Hres. rewrite resolve_run. intent_simpl.
      destruct (host_objects self !! _) as [gw|]; [|discriminate].
      destruct (gw !! lit "name"); [|discriminate].
      destruct (partition_of self _ !! _) as [net|]; [|discriminate].
      destruct (net !! lit "name"); [|discriminate].
      by intros [= <- <-]. }
    apply Kh in Eg.
    assert (net_obj !! lit "name" = Some (lit "obj-" ++ n)) as Hn.
    { unfold partition_of in En.
      destruct (is_host (Some m)); [by apply Kh in En | by apply Kn in En]. }
    split; congruence.
Qed.

(** C6, witness: the worked example's line
    [route inside 10.1.1.0 255.255.255.0 10.1.1.1 1] on the catalog loaded
    from a network object [N1] and a host object [H1] that FMC lists under
    the names [obj-10.1.1.0] and [obj-10.1.1.1].  The payload is the one
    of the specification but for the two names. *)
Lemma C6_route_payload_witness :
  result (get_existing_objects init (Answered [obj_10_1_1_0])
            (Answered [obj_10_1_1_1]))
  = Return loaded_catalog
  ∧ result (process_line int_literal loaded_catalog start example_line)
    = Return (start.1 ++ [loaded_payload], start.2)
  ∧ (∀ networks hosts,
       result (get_existing_objects init networks hosts)
       = Return loaded_catalog →
       lit "obj-10.1.1.0" = lit "obj-" ++ lit "10.1.1.0"
       ∧ lit "obj-10.1.1.1" = lit "obj-" ++ lit "10.1.1.1").
Proof.
  split; [vm_compute; reflexivity|].
  apply (C6_route_payload int_literal loaded_catalog start example_line
           (lit "inside") (lit "10.1.1.0") (lit "255.255.255.0")
           (lit "10.1.1.1") (lit "1") 1%Z obj_10_1_1_0 obj_10_1_1_1);
    vm_compute; reflexivity.
Defined.

(** C6, as stated, fails on its worked example.  With the two objects as
    the specification gives them, a network [10.1.1.0] named [net-101] and
    a host [10.1.1.1] named [gw-111], the catalog is loaded under these two
    names; the line's gateway is looked up as [obj-10.1.1.1] and is not
    found, no payload is built, and the batch is rejected with exit code
    1. *)
Lemma C6_worked_example_builds_no_payload :
  (fmc ← get_existing_objects init (Answered [net_101]) (Answered [gw_111]);
   parse_and_prepare_routes int_literal fmc [example_line])
  = ([Out FetchingNetworkObjects; Http ListNetworks;
      Out (FoundNetworkObject (lit "net-101"));
      Out FetchingHostObjects; Http ListHosts;
      Out (FoundHostObject (lit "gw-111"));
      Out (TotalObjectsFound 1 1);
      Out ParsingRoutes;
      Out (NoExistingObject (lit "10.1.1.1"));
      Out ObjectsNotFound;
      Out (MissingItem (lit "Gateway: 10.1.1.1"));
      Out PleaseCreate],
     Exit 1).
Proof. vm_compute. reflexivity. Qed.

(** The payload of the specification is what the loop body builds on the
    two caches of [example_catalog], which hold its entries under the keys
    of the lookups and which no listing loads. *)
Example worked_example_run :
  parse_and_prepare_routes int_literal example_catalog [example_line]
  = ([Out ParsingRoutes;
      Out (FoundExistingObject (lit "gw-111") (lit "10.1.1.1"));
      Out (FoundExistingObject (lit "net-101") (lit "10.1.1.0"));
      Out (PreparedRoute (lit "10.1.1.0") (lit "255.255.255.0")
             (lit "10.1.1.1"))],
     Return [example_payload]).
Proof. vm_compute. reflexivity. Qed.

(** ** Scanning the file *)

Lemma bind_Return_inv {A B} (m : M A) (k : A → M B) t b :
  bind m k = (t, Return b) →
  ∃ t1 a t2, m = (t1, Return a) ∧ k a = (t2, Return b) ∧ t = t1 ++ t2.
Proof.
  destruct m as [t1 [a| |]]; try discriminate.
  unfold bind. destruct (k a) as [t2 r] eqn:E. intros [= <- ->].
  by exists t1, a, t2.
Qed.

Lemma for_each_Return_each {A S} (body : S → A → M S) xs s t s' :
  for_each body xs s = (t, Return s') →
  ∀ x, x ∈ xs → ∃ s0 t1 s1, body s0 x = (t1, Return s1).
Proof.
  revert s t. induction xs as [|y xs IH]; intros s t H x Hx.
  - by apply elem_of_nil in Hx.
  - rewrite for_each_cons in H.
    apply bind_Return_inv in H as (t1 & s1 & t2 & Hy & Hxs & _).
    apply elem_of_cons in Hx as [->|Hx]; [by eauto|].
    by eapply IH.
Qed.

Section Scan.

Variable py_int : str → option Z.
Variable self : FMCRouteConverter.

Lemma scan_app xs ys :
  scan py_int self (xs ++ ys)
  = bind (scan py_int self xs) (for_each (process_line py_int self) ys).
Proof.
  unfold scan. rewrite !mbind_unfold, bind_assoc.
  apply bind_ext. intros _. apply for_each_app.
Qed.

Lemma process_line_missing acc line t acc' :
  process_line py_int self acc line = (t, Return acc') →
  ∀ d, d ∈ acc'.2 ↔ d ∈ acc.2 ∨ misses py_int self line d.
Proof.
  intros H d.
  destruct (parse_line_cases py_int line) as [E|[E|[intent E]]].
  - rewrite (process_line_skip _ _ _ _ E) in H. injection H as _ <-.
    split; [by left|]. intros [?|(intent & E' & _)]; [done|].
    rewrite E in E'. discriminate.
  - rewrite (process_line_raise _ _ _ _ E) in H. discriminate.
  - rewrite (process_line_intent _ _ _ _ _ E) in H.
    apply bind_Return_inv in H as (t1 & r & t2 & Hr & Hk & _).
    assert (∀ d', misses py_int self line d' ↔ r = MissingReference d') as Hm.
    { intros d'. split.
      - intros (intent' & E' & Hres). rewrite E in E'.
        injection E' as <-. rewrite Hr in Hres. by injection Hres.
      - intros ->. exists intent. by rewrite Hr. }
    destruct r as [net_obj gw_obj|d']; unfold after_resolve in Hk.
    + rewrite mbind_unfold in Hk.
      apply bind_Return_inv in Hk as (? & route & ? & _ & Hk & _).
      rewrite mbind_unfold, bind_print in Hk. injection Hk as _ <-.
      rewrite Hm. split; [by left | intros [?|?]; done].
    + injection Hk as _ <-. cbn [snd].
      rewrite elem_of_union, elem_of_singleton, Hm.
      split; (intros [?|?]; [by left | right; congruence]).
Qed.

Lemma for_each_missing lines acc t acc' :
  for_each (process_line py_int self) lines acc = (t, Return acc') →
  ∀ d, d ∈ acc'.2 ↔ d ∈ acc.2 ∨ ∃ line, line ∈ lines ∧ misses py_int self line d.
Proof.
  revert acc t. induction lines as [|line lines IH]; intros acc t H d.
  - injection H as _ <-. split; [by left|].
    intros [?|(line & Hin & _)]; [done|]. by apply elem_of_nil in Hin.
  - rewrite for_each_cons in H.
    apply bind_Return_inv in H as (t1 & acc1 & t2 & H1 & H2 & _).
    rewrite (IH _ _ H2 d), (process_line_missing _ _ _ _ H1 d).
    split.
    + intros [[?|?]|(l & Hin & Hl)]; [by left| |].
      * right. exists line. split; [apply elem_of_cons; by left | done].
      * right. exists l. split; [apply elem_of_cons; by right | done].
    + intros [?|(l & Hin & Hl)]; [by left; left|].
      apply elem_of_cons in Hin as [->|Hin]; [by left; right|].
      right. by exists l.
Qed.

End Scan.

(** C3, counterexample: a six-token [route] line whose metric is [abc] is
    not skipped.  [int] raises [ValueError] on it, and the run ends there:
    the valid line that follows, which the catalog resolves, is never
    processed and no route is returned. *)
Lemma C3_bad_metric_is_not_skipped :
  length (split (strip bad_metric_line)) = 6
  ∧ head (split (strip bad_metric_line)) = Some (lit "route")
  ∧ int_literal (lit "abc") = None
  ∧ parse_and_prepare_routes int_literal example_catalog
      [bad_metric_line; example_line]
    = ([Out ParsingRoutes], Raise ValueError).
Proof. vm_compute. repeat split; reflexivity. Qed.

(** C3, as amended: a line of the six-token [route] shape whose metric
    token [int] rejects yields no intent: [int] raises [ValueError], which
    nothing catches.  When the lines before it were processed normally,
    [parse_and_prepare_routes] ends with that exception at that line,
    whatever lines follow: they are not processed and no route is
    returned. *)
Theorem C3_bad_metric_raises (py_int : str → option Z)
    self before line after t acc :
  route_shape line →
  (split (strip line) !! 5) ≫= py_int = None →
  scan py_int self before = (t, Return acc) →
  parse_line py_int line = raise ValueError
  ∧ parse_and_prepare_routes py_int self (before ++ line :: after)
    = (t, Raise ValueError).
Proof.
  intros Hshape Hint Hscan.
  apply route_shape_tokens in Hshape as (i & n & m & g & k & E).
  rewrite E in Hint. simpl in Hint.
  pose proof (parse_line_route py_int _ _ _ _ _ _ E) as Hp.
  rewrite Hint in Hp. split; [done|].
  unfold parse_and_prepare_routes.
  rewrite mbind_unfold, scan_app, Hscan, bind_Return, for_each_cons.
  rewrite (process_line_raise _ _ _ _ Hp).
  unfold raise. rewrite bind_Raise. cbn [trace result fst snd].
  by rewrite app_nil_r.
Qed.

(** C3, witness: the line after one that resolves. *)
Lemma C3_bad_metric_raises_witness :
  parse_line int_literal bad_metric_line = raise ValueError
  ∧ parse_and_prepare_routes int_literal example_catalog
      ([example_line] ++ bad_metric_line :: [example_line])
    = ([Out ParsingRoutes;
        Out (FoundExistingObject (lit "gw-111") (lit "10.1.1.1"));
        Out (FoundExistingObject (lit "net-101") (lit "10.1.1.0"));
        Out (PreparedRoute (lit "10.1.1.0") (lit "255.255.255.0")
               (lit "10.1.1.1"))],
       Raise ValueError).
Proof.
  apply (C3_bad_metric_raises int_literal example_catalog [example_line]
           bad_metric_line [example_line] _ ([example_payload], ∅)).
  - vm_compute. split; reflexivity.
  - vm_compute. reflexivity.
  - vm_compute. reflexivity.
Defined.

(** ** The missing references of a scan *)

Section Missing.

Variable py_int : str → option Z.
Variable self : FMCRouteConverter.

(** On a route line that was processed normally, the descriptor recorded
    is the gateway's when the gateway is not in the host cache, and the
    network's when the gateway is there and the network is not in its
    cache. *)
Lemma misses_route_line line i n m g k acc t acc' d :
  split (strip line) = [lit "route"; i; n; m; g; k] →
  process_line py_int self acc line = (t, Return acc') →
  misses py_int self line d
  ↔ (d = gateway_descriptor g
     ∧ host_objects self !! (lit "obj-" ++ g) = None)
    ∨ (d = network_descriptor n m
       ∧ is_Some (host_objects self !! (lit "obj-" ++ g))
       ∧ partition_of self (Some m) !! (lit "obj-" ++ n) = None).
Proof.
  intros E Hrun.
  pose proof (parse_line_route py_int _ _ _ _ _ _ E) as Hp.
  destruct (py_int k) as [z|].
  2: { rewrite (process_line_raise _ _ _ _ Hp) in Hrun. discriminate. }
  rewrite (process_line_intent _ _ _ _ _ Hp) in Hrun.
  apply bind_Return_inv in Hrun as (t1 & r & t2 & Hr & _ & _).
  assert (misses py_int self line d ↔ r = MissingReference d) as ->.
  { split.
    - intros (intent' & E' & Hres). rewrite Hp in E'.
      injection E' as <-. rewrite Hr in Hres. by injection Hres.
    - intros ->. eexists. split; [exact Hp|]. by rewrite Hr. }
  rewrite resolve_run in Hr. intent_simpl. cbv zeta in Hr.
  cbn [intent_gateway intent_network intent_netmask] in Hr.
  destruct (host_objects self !! (lit "obj-" ++ g)) as [gw_obj|].
  - destruct (gw_obj !! lit "name") as [gname|]; [|discriminate].
    destruct (partition_of self (Some m) !! (lit "obj-" ++ n))
      as [net_obj|].
    + destruct (net_obj !! lit "name"); [|discriminate].
      injection Hr as _ <-.
      split; [discriminate | intros [[_ ?]|(_ & _ & ?)]; discriminate].
    + injection Hr as _ <-. split.
      * intros [= <-]. right. eauto.
      * intros [[_ ?]|(-> & _)]; [discriminate | done].
  - injection Hr as _ <-. split.
    + intros [= <-]. by left.
    + intros [[-> _]|(_ & [? ?] & _)]; [done | discriminate].
Qed.

Lemma misses_route_shape line d :
  misses py_int self line d → route_shape line.
Proof.
  intros (intent & E & _).
  destruct (decide (route_shape line)) as [|H]; [done|].
  rewrite (parse_line_other _ _ H) in E. discriminate.
Qed.

(** The descriptors a completed scan has collected. *)
Lemma scan_missing lines t routes missing :
  scan py_int self lines = (t, Return (routes, missing)) →
  ∀ d, d ∈ missing
       ↔ ∃ line i n m g k,
           line ∈ lines
           ∧ split (strip line) = [lit "route"; i; n; m; g; k]
           ∧ (d = gateway_descriptor g
              ∧ host_objects self !! (lit "obj-" ++ g) = None
              ∨ d = network_descriptor n m
                ∧ is_Some (host_objects self !! (lit "obj-" ++ g))
                ∧ partition_of self (Some m) !! (lit "obj-" ++ n) = None).
Proof.
  unfold scan. rewrite mbind_unfold, bind_print. intros [= _ Hres] d.
  destruct (for_each _ lines _) as [t' r] eqn:Hloop.
  cbn [result snd] in Hres. subst r.
  rewrite (for_each_missing _ _ _ _ _ _ Hloop d). cbn [snd].
  split.
  - intros [Hd|(line & Hin & Hm)]; [by apply elem_of_empty in Hd|].
    pose proof (misses_route_shape _ _ Hm)
      as (i & n & m & g & k & E)%route_shape_tokens.
    destruct (for_each_Return_each _ _ _ _ _ Hloop _ Hin)
      as (acc & t1 & acc1 & Hrun).
    exists line, i, n, m, g, k. split; [done|]. split; [done|].
    by apply (misses_route_line _ _ _ _ _ _ _ _ _ _ E Hrun).
  - intros (line & i & n & m & g & k & Hin & E & Hd). right.
    destruct (for_each_Return_each _ _ _ _ _ Hloop _ Hin)
      as (acc & t1 & acc1 & Hrun).
    exists line. split; [done|].
    by apply (misses_route_line _ _ _ _ _ _ _ _ _ _ E Hrun).
Qed.

End Missing.

(** ** The scan returns *)

Lemma process_line_completes (py_int : str → option Z) self acc line :
  complete_catalog self →
  readable py_int line →
  ∃ t acc', process_line py_int self acc line = (t, Return acc').
Proof.
  intros Hcat Hline.
  destruct (decide (route_shape line)) as [Hshape|Hshape].
  2: { rewrite (process_line_skip _ _ _ _ (parse_line_other _ _ Hshape)).
       by eexists _, _. }
  specialize (Hline Hshape) as [z Hz].
  apply route_shape_tokens in Hshape as (i & n & m & g & k & E).
  rewrite E in Hz. simpl in Hz.
  pose proof (parse_line_route py_int _ _ _ _ _ _ E) as Hp. rewrite Hz in Hp.
  rewrite (process_line_intent _ _ _ _ _ Hp), resolve_run. intent_simpl.
  destruct (host_objects self !! (lit "obj-" ++ g)) as [gw_obj|] eqn:Eg.
  2: { msimpl. by eexists _, _. }
  destruct (Hcat _ _ (or_intror Eg)) as ([gn Hgn] & [gt Hgt] & [gi Hgi]).
  rewrite Hgn.
  destruct (partition_of self (Some m) !! (lit "obj-" ++ n)) as [net_obj|]
    eqn:En.
  2: { msimpl. by eexists _, _. }
  assert (complete_entry net_obj) as ([nn Hnn] & [nt Hnt] & [ni Hni]).
  { unfold partition_of in En. destruct (is_host (Some m)).
    - by apply (Hcat _ _ (or_intror En)).
    - by apply (Hcat _ _ (or_introl En)). }
  rewrite Hnn, bind_Return. unfold after_resolve.
  rewrite mbind_unfold,
    (build_route_run _ _ _ _ _ _ _ _ _ Hnt Hni Hnn Hgt Hgi Hgn).
  msimpl. by eexists _, _.
Qed.

(** Against a catalog whose entries are complete, the scan of a file
    whose route lines all carry an integer metric runs to the end. *)
Lemma scan_completes (py_int : str → option Z) self lines :
  complete_catalog self →
  Forall (readable py_int) lines →
  ∃ t acc, scan py_int self lines = (t, Return acc).
Proof.
  intros Hcat Hlines. unfold scan. rewrite mbind_unfold, bind_print.
  cut (∀ acc, ∃ t acc', for_each (process_line py_int self) lines acc
                        = (t, Return acc')).
  { intros H. destruct (H start) as (t & acc' & ->). by eexists _, _. }
  induction Hlines as [|line lines Hline _ IH]; intros acc.
  - by eexists _, _.
  - rewrite for_each_cons.
    destruct (process_line_completes py_int self acc line Hcat Hline)
      as (t1 & acc1 & ->).
    rewrite bind_Return.
    destruct (IH acc1) as (t2 & acc2 & ->). by eexists _, _.
Qed.

Lemma report_missing_run (ds : list str) :
  for_each (λ (_ : unit) obj, print (MissingItem obj)) ds tt
  = ((λ d, Out (MissingItem d)) <$> ds, Return tt).
Proof.
  induction ds as [|d ds IH]; [done|].
  rewrite for_each_cons, bind_print, IH. done.
Qed.

(** C2: when the scan of the whole file ends with a non-empty set of
    missing references, [parse_and_prepare_routes] prints them and calls
    [sys.exit(1)]: it returns no route, even if [routes] is not empty,
    and nothing that follows the call runs.  What it prints is the set in
    sorted order and without repetition, and the set holds exactly, for
    each route line of the file, [Gateway: <gateway>] when the gateway is
    not in the host cache and [Network: <network>/<netmask>] when the
    gateway is there and the network is not in the cache for its mask. *)
Theorem C2_all_or_nothing (py_int : str → option Z)
    self lines t routes missing :
  scan py_int self lines = (t, Return (routes, missing)) →
  missing ≠ ∅ →
  parse_and_prepare_routes py_int self lines
  = (t ++ [Out ObjectsNotFound]
       ++ ((λ d, Out (MissingItem d)) <$> sorted (elements missing))
       ++ [Out PleaseCreate],
     Exit 1)
  ∧ (∀ B (k : list RoutePayload → M B),
       parse_and_prepare_routes py_int self lines ≫= k
       = (trace (parse_and_prepare_routes py_int self lines), Exit 1))
  ∧ Sorted str_order (sorted (elements missing))
  ∧ NoDup (sorted (elements missing))
  ∧ (∀ d, d ∈ sorted (elements missing)
          ↔ ∃ line i n m g k,
              line ∈ lines
              ∧ split (strip line) = [lit "route"; i; n; m; g; k]
              ∧ (d = lit "Gateway: " ++ g
                 ∧ host_objects self !! (lit "obj-" ++ g) = None
                 ∨ d = lit "Network: " ++ n ++ lit "/" ++ m
                   ∧ is_Some (host_objects self !! (lit "obj-" ++ g))
                   ∧ partition_of self (Some m) !! (lit "obj-" ++ n) = None)).
Proof.
  intros Hscan Hne.
  assert (parse_and_prepare_routes py_int self lines
          = (t ++ [Out ObjectsNotFound]
               ++ ((λ d, Out (MissingItem d)) <$> sorted (elements missing))
               ++ [Out PleaseCreate],
             Exit 1)) as Hrun.
  { unfold parse_and_prepare_routes.
    rewrite mbind_unfold, Hscan, bind_Return. cbn [fst snd].
    destruct (decide (missing ≠ ∅)) as [_|]; [|done].
    rewrite !mbind_unfold, bind_print, report_missing_run, bind_Return.
    rewrite bind_print. reflexivity. }
  split; [done|]. split; [|split; [|split]].
  - intros B k. by rewrite Hrun.
  - apply Sorted_sorted.
  - apply NoDup_sorted, NoDup_elements.
  - intros d. rewrite elem_of_sorted, elem_of_elements.
    apply (scan_missing _ _ _ _ _ _ Hscan).
Qed.

(** C2, witness: [mixed_file] against the catalog of the worked example.
    One line resolves, and still no route is returned; the gateway named
    twice is reported once, before the network. *)
Lemma C2_all_or_nothing_witness :
  parse_and_prepare_routes int_literal example_catalog mixed_file
  = (trace (scan int_literal example_catalog mixed_file)
       ++ [Out ObjectsNotFound;
           Out (MissingItem (lit "Gateway: 192.0.2.1"));
           Out (MissingItem (lit "Network: 10.1.2.0/255.255.255.0"));
           Out PleaseCreate],
     Exit 1).
Proof.
  refine (proj1 (C2_all_or_nothing int_literal example_catalog mixed_file
                   (trace (scan int_literal example_catalog mixed_file))
                   [example_payload]
                   {[ lit "Gateway: 192.0.2.1";
                      lit "Network: 10.1.2.0/255.255.255.0" ]} _ _)).
  - vm_compute. reflexivity.
  - vm_compute. discriminate.
Defined.

(** ** Deployment *)

Section Deploy.

Variable post : nat → RoutePayload → response unit.
Variable total : nat.

Lemma deploy_route_run i route :
  deploy_route post total tt (i, route)
  = match selectedNetworks route, post i route with
    | net :: _, Answered _ =>
        (deployed_step total i route (ref_name net), Return tt)
    | net :: _, RequestException e =>
        ([Http (CreateRoute route);
          Out (ErrorDeployingRoute (ref_name net) e);
          Out (FailedRouteDetails route);
          Out StoppingDeployment],
         Exit 1)
    | [], _ => ([Http (CreateRoute route)], Raise IndexError)
    end.
Proof.
  unfold deploy_route, first_network_name, deployed_step. cbn [fst snd].
  rewrite mbind_unfold, bind_emit.
  destruct (post i route) as [u|e], (selectedNetworks route) as [|net rest];
    msimpl; try reflexivity.
  - destruct (decide (i mod 10 = 0)); reflexivity.
Qed.

Lemma deploy_loop_nil i : deploy_loop post total i [] = ret tt.
Proof. reflexivity. Qed.

Lemma deploy_loop_cons i route routes :
  deploy_loop post total i (route :: routes)
  = match selectedNetworks route, post i route with
    | net :: _, Answered _ =>
        (deployed_step total i route (ref_name net)
           ++ trace (deploy_loop post total (S i) routes),
         result (deploy_loop post total (S i) routes))
    | net :: _, RequestException e =>
        ([Http (CreateRoute route);
          Out (ErrorDeployingRoute (ref_name net) e);
          Out (FailedRouteDetails route);
          Out StoppingDeployment],
         Exit 1)
    | [], _ => ([Http (CreateRoute route)], Raise IndexError)
    end.
Proof.
  unfold deploy_loop. cbn [enumerate]. rewrite for_each_cons.
  rewrite deploy_route_run.
  destruct (selectedNetworks route) as [|net rest], (post i route) as [u|e];
    try reflexivity.
  by rewrite bind_Return.
Qed.

Lemma submissions_deployed_step i route name :
  submissions (deployed_step total i route name) = [route].
Proof. unfold deployed_step. by destruct (decide (i mod 10 = 0)). Qed.

Lemma submissions_app t1 t2 :
  submissions (t1 ++ t2) = submissions t1 ++ submissions t2.
Proof. apply omap_app. Qed.

(** The submissions are an initial segment of the input, in its order. *)
Lemma deploy_loop_prefix i routes :
  submissions (trace (deploy_loop post total i routes)) `prefix_of` routes.
Proof.
  revert i. induction routes as [|route routes IH]; intros i.
  - by exists [].
  - rewrite deploy_loop_cons.
    destruct (selectedNetworks route) as [|net rest], (post i route) as [u|e];
      cbn [trace fst]; try (by exists routes).
    rewrite submissions_app, submissions_deployed_step.
    by apply prefix_cons.
Qed.

(** Every request of the loop creates a route of the input. *)
Lemma deploy_loop_requests i routes r :
  Http r ∈ trace (deploy_loop post total i routes) →
  ∃ route, r = CreateRoute route ∧ route ∈ routes.
Proof.
  revert i. induction routes as [|route routes IH]; intros i.
  - intros H. by apply elem_of_nil in H.
  - rewrite deploy_loop_cons.
    assert (route ∈ route :: routes) as Hhere by (apply elem_of_cons; by left).
    destruct (selectedNetworks route) as [|net rest], (post i route) as [u|e];
      cbn [trace fst]; intros H.
    1, 2, 4: apply elem_of_cons in H as [[= ->]|H];
             [by exists route | exfalso; set_solver].
    apply elem_of_app in H as [H|H].
    + unfold deployed_step in H. apply elem_of_app in H as [H|H].
      * apply elem_of_cons in H as [[= ->]|H]; [by exists route|].
        exfalso. set_solver.
      * exfalso. destruct (decide (i mod 10 = 0)); set_solver.
    + destruct (IH _ H) as (route' & -> & Hin).
      exists route'. split; [done|]. apply elem_of_cons. by right.
Qed.

(** After a submission that fails there is no further submission, and
    nothing but diagnostics. *)
Lemma deploy_loop_fail_fast i routes k route e :
  routes !! k = Some route →
  post (i + k) route = RequestException e →
  length (submissions (trace (deploy_loop post total i routes))) ≤ S k
  ∧ (length (submissions (trace (deploy_loop post total i routes))) = S k →
     result (deploy_loop post total i routes)
     = match selectedNetworks route with
       | [] => Raise IndexError
       | _ => Exit 1
       end
     ∧ ∃ t1 t2,
         trace (deploy_loop post total i routes) = t1 ++ Http (CreateRoute route) :: t2
         ∧ Forall is_diag t2).
Proof.
  revert i k. induction routes as [|r routes IH]; intros i k Hk Hpost;
    [done|].
  rewrite deploy_loop_cons. destruct k as [|k]; cbn in Hk.
  - injection Hk as ->. rewrite Nat.add_0_r in Hpost. rewrite Hpost.
    destruct (selectedNetworks route) as [|net rest]; simpl.
    + split; [lia|]. intros _. split; [done|].
      exists [], []. split; [done | constructor].
    + split; [lia|]. intros _. split; [done|].
      eexists [], _. split; [reflexivity|].
      repeat constructor; by eexists.
  - replace (i + S k) with (S i + k) in Hpost by lia.
    destruct (IH (S i) k Hk Hpost) as [Hle Hlast].
    destruct (selectedNetworks r) as [|net rest], (post i r) as [u|e'];
      cbn [trace result fst snd]; try (simpl; split; [lia | intros; lia]).
    rewrite submissions_app, submissions_deployed_step. simpl.
    split; [lia|]. intros [= Hlen].
    destruct (Hlast Hlen) as (Hres & t1 & t2 & Ht & Hd).
    split; [done|]. exists (deployed_step total i r (ref_name net) ++ t1), t2.
    split; [|done]. by rewrite Ht, app_assoc.
Qed.

(** When every submission is answered, every route is submitted. *)
Lemma deploy_loop_all i routes :
  (∀ k route, routes !! k = Some route →
              (∃ u, post (i + k) route = Answered u)
              ∧ selectedNetworks route ≠ []) →
  submissions (trace (deploy_loop post total i routes)) = routes
  ∧ result (deploy_loop post total i routes) = Return tt.
Proof.
  revert i. induction routes as [|r routes IH]; intros i Hall; [done|].
  rewrite deploy_loop_cons.
  destruct (Hall 0 r eq_refl) as [[u Hu] Hn]. rewrite Nat.add_0_r in Hu.
  rewrite Hu. destruct (selectedNetworks r) as [|net rest]; [done|].
  cbn [trace result fst snd].
  rewrite submissions_app, submissions_deployed_step.
  destruct (IH (S i)) as [-> ->]; [|done].
  intros k route Hk. replace (S i + k) with (i + S k) by lia.
  by apply Hall.
Qed.

(** The loop reaches a submission when all those before it were
    answered. *)
Lemma deploy_loop_reach i routes k route :
  routes !! k = Some route →
  (∀ j route', j < k → routes !! j = Some route' →
               (∃ u, post (i + j) route' = Answered u)
               ∧ selectedNetworks route' ≠ []) →
  S k ≤ length (submissions (trace (deploy_loop post total i routes))).
Proof.
  revert i k. induction routes as [|r routes IH]; intros i k Hk Hbefore;
    [done|].
  rewrite deploy_loop_cons. destruct k as [|k]; cbn in Hk.
  - destruct (selectedNetworks r) as [|net rest], (post i r) as [u|e];
      cbn [trace fst]; rewrite ?submissions_app, ?submissions_deployed_step;
      simpl; lia.
  - destruct (Hbefore 0 r ltac:(lia) eq_refl) as [[u Hu] Hn].
    rewrite Nat.add_0_r in Hu. rewrite Hu.
    destruct (selectedNetworks r) as [|net rest]; [done|].
    cbn [trace fst]. rewrite submissions_app, submissions_deployed_step.
    simpl. apply le_n_S, (IH (S i) k Hk).
    intros j route' Hj Hr. replace (S i + j) with (i + S j) by lia.
    apply Hbefore; [lia | done].
Qed.

End Deploy.

Lemma deploy_routes_run post routes :
  deploy_routes post routes
  = (Out (DeployingRoutes (length routes))
       :: trace (deploy_loop post (length routes) 1 routes),
     result (deploy_loop post (length routes) 1 routes)).
Proof. unfold deploy_routes. by rewrite mbind_unfold, bind_print. Qed.

(** C4: the routes are submitted one after the other in the order of the
    input list: the submissions of a run are an initial segment of the
    list, and the whole list when every submission is answered.  The only
    requests sent are creations of routes of the list, so nothing applied
    earlier is undone.  When submission number [k+1] fails, no later route
    is submitted; if that submission was reached, the run ends there
    with [sys.exit(1)] (an [IndexError] if the route names no network),
    with nothing but diagnostics after the failed request; and it is
    reached when the submissions before it were answered, the routes
    submitted being then exactly the first [k+1] of the list. *)
Theorem C4_deploy_in_order_fail_fast post routes :
  submissions (trace (deploy_routes post routes)) `prefix_of` routes
  ∧ (∀ r, Http r ∈ trace (deploy_routes post routes) →
          ∃ route, r = CreateRoute route ∧ route ∈ routes)
  ∧ (∀ k route e,
       routes !! k = Some route →
       post (S k) route = RequestException e →
       length (submissions (trace (deploy_routes post routes))) ≤ S k
       ∧ (length (submissions (trace (deploy_routes post routes))) = S k →
          result (deploy_routes post routes)
          = match selectedNetworks route with
            | [] => Raise IndexError
            | _ => Exit 1
            end
          ∧ ∃ t1 t2,
              trace (deploy_routes post routes)
              = t1 ++ Http (CreateRoute route) :: t2
              ∧ Forall is_diag t2)
       ∧ ((∀ j route', j < k → routes !! j = Some route' →
                       (∃ u, post (S j) route' = Answered u)
                       ∧ selectedNetworks route' ≠ []) →
          submissions (trace (deploy_routes post routes))
          = take (S k) routes))
  ∧ ((∀ k route, routes !! k = Some route →
                 (∃ u, post (S k) route = Answered u)
                 ∧ selectedNetworks route ≠ []) →
     submissions (trace (deploy_routes post routes)) = routes
     ∧ result (deploy_routes post routes) = Return tt).
Proof.
  rewrite deploy_routes_run. cbn [trace result fst snd].
  change (submissions (Out (DeployingRoutes (length routes)) :: ?t))
    with (submissions t).
  split; [|split; [|split]].
  - apply deploy_loop_prefix.
  - intros r [?|H]%elem_of_cons; [done|]. by eapply deploy_loop_requests.
  - intros k route e Hk Hpost.
    destruct (deploy_loop_fail_fast post (length routes) 1 routes k route e
                Hk Hpost) as [Hle Hlast].
    split; [done|]. split.
    + intros Hlen.
      destruct (Hlast Hlen) as (Hres & t1 & t2 & Ht & Hd).
      split; [done|].
      exists (Out (DeployingRoutes (length routes)) :: t1), t2.
      split; [|done]. by rewrite Ht.
    + intros Hbefore.
      pose proof (deploy_loop_reach post (length routes) 1 routes k route
                    Hk Hbefore) as Hge.
      destruct (deploy_loop_prefix post (length routes) 1 routes)
        as [rest Hrest].
      remember (submissions (trace (deploy_loop post (length routes) 1 routes)))
        as subs eqn:Hsubs. clear Hsubs.
      rewrite Hrest. symmetry. apply take_app_length'. lia.
  - intros Hall. by apply deploy_loop_all.
Qed.

(** ** Pacing *)

Lemma app_eq_app_cons {A} (step rest t1 t2 : list A) y :
  step ++ rest = t1 ++ y :: t2 →
  (∃ l, step = t1 ++ y :: l ∧ t2 = l ++ rest)
  ∨ (∃ l, t1 = step ++ l ∧ rest = l ++ y :: t2).
Proof.
  intros H. apply app_eq_app in H as [l [[-> H]|[-> H]]].
  - destruct l as [|z l]; simpl in H.
    + right. exists []. by rewrite !app_nil_r.
    + injection H as <- ->. left. by exists l.
  - right. by exists l.
Qed.

Ltac peel t1 :=
  do 5 (try (destruct t1 as [|? t1]; simplify_eq/=)).

Section Pacing.

Variable post : nat → RoutePayload → response unit.
Variable total : nat.

(** A pause lasts one second and directly follows the progress line of
    a submission whose number is a multiple of ten. *)
Lemma deploy_loop_pause_after_tenth i routes t1 s t2 :
  trace (deploy_loop post total i routes) = t1 ++ Sleep s :: t2 →
  s = 1
  ∧ ∃ t0 j name,
      t1 = t0 ++ [Out (DeployedRoute j total name)] ∧ j mod 10 = 0.
Proof.
  revert i t1. induction routes as [|r routes IH]; intros i t1.
  - intros H. by peel t1.
  - rewrite deploy_loop_cons.
    destruct (selectedNetworks r) as [|net rest], (post i r) as [u|e];
      cbn [trace fst]; intros H; try (by peel t1).
    apply app_eq_app_cons in H as [(l & H & _)|(l & -> & H)].
    + unfold deployed_step in H.
      destruct (decide (i mod 10 = 0)) as [Hi|_]; peel t1.
      split; [done|].
      by exists [Http (CreateRoute r)], i, (ref_name net).
    + destruct (IH _ _ H) as (-> & t0 & j & name & -> & Hj).
      split; [done|].
      exists (deployed_step total i r (ref_name net) ++ t0), j, name.
      by rewrite app_assoc.
Qed.

(** A progress line carries the total, directly follows the request of
    the submission it reports, which was answered, and is directly
    followed by a pause when its number is a multiple of ten. *)
Lemma deploy_loop_progress i routes t1 j n name t2 :
  trace (deploy_loop post total i routes)
  = t1 ++ Out (DeployedRoute j n name) :: t2 →
  n = total
  ∧ (∃ t0 k route u net rest,
       t1 = t0 ++ [Http (CreateRoute route)]
       ∧ j = i + k
       ∧ routes !! k = Some route
       ∧ post j route = Answered u
       ∧ selectedNetworks route = net :: rest
       ∧ name = ref_name net)
  ∧ (j mod 10 = 0 → ∃ t3, t2 = Sleep 1 :: t3).
Proof.
  revert i t1. induction routes as [|r routes IH]; intros i t1.
  - intros H. by peel t1.
  - rewrite deploy_loop_cons.
    destruct (selectedNetworks r) as [|net rest] eqn:En,
             (post i r) as [u|e] eqn:Ep;
      cbn [trace fst]; intros H; try (by peel t1).
    apply app_eq_app_cons in H as [(l & H & ->)|(l & -> & H)].
    + unfold deployed_step in H.
      destruct (decide (i mod 10 = 0)) as [Hi|Hi]; peel t1.
      * split; [done|]. split; [|by eexists].
        exists [], 0, r, u, net, rest. rewrite Nat.add_0_r. done.
      * split; [done|]. split; [|done].
        exists [], 0, r, u, net, rest. rewrite Nat.add_0_r. done.
    + destruct (IH _ _ H)
        as (-> & (t0 & k & route & u' & net' & rest' & -> & -> & Hk & Hp
                  & Hn & ->) & Hten).
      split; [done|]. split; [|done].
      exists (deployed_step total i r (ref_name net) ++ t0), (S k), route,
        u', net', rest'.
      rewrite app_assoc. replace (i + S k) with (S i + k) by lia. done.
Qed.

(** Every answered submission is directly followed by its progress
    line. *)
Lemma deploy_loop_reports i routes k route u net rest :
  routes !! k = Some route →
  S k ≤ length (submissions (trace (deploy_loop post total i routes))) →
  post (i + k) route = Answered u →
  selectedNetworks route = net :: rest →
  ∃ t1 t2,
    trace (deploy_loop post total i routes)
    = t1 ++ Http (CreateRoute route)
         :: Out (DeployedRoute (i + k) total (ref_name net)) :: t2.
Proof.
  revert i k. induction routes as [|r routes IH];
    intros i k Hk Hlen Hpost Hnet; [done|].
  rewrite deploy_loop_cons in *. destruct k as [|k]; cbn in Hk.
  - injection Hk as ->. rewrite Nat.add_0_r in *. rewrite Hpost, Hnet.
    exists []. unfold deployed_step. cbn [trace fst]. by eexists.
  - replace (i + S k) with (S i + k) in * by lia.
    destruct (selectedNetworks r) as [|net' rest'], (post i r) as [u'|e];
      cbn [trace fst] in *; try (simpl in Hlen; lia).
    rewrite submissions_app, submissions_deployed_step in Hlen.
    simpl in Hlen.
    destruct (IH (S i) k Hk ltac:(lia) Hpost Hnet) as (t1 & t2 & ->).
    exists (deployed_step total i r (ref_name net') ++ t1), t2.
    by rewrite app_assoc.
Qed.

End Pacing.

(** C9, counterexample: the tenth submission is made and fails; the run
    stops without any pause, although ten submissions were made. *)
Lemma C9_no_pause_after_failed_tenth :
  submissions (trace (deploy_routes tenth_fails ten_routes)) = ten_routes
  ∧ pauses (trace (deploy_routes tenth_fails ten_routes)) = 0
  ∧ result (deploy_routes tenth_fails ten_routes) = Exit 1.
Proof. vm_compute. repeat split; reflexivity. Qed.

(** C9, as amended: in the trace of a deployment, every pause lasts one
    second and comes directly after the progress line of a submission
    whose number is a multiple of ten, so that there is no pause at any
    other point; every progress line reads [i/total], comes directly
    after the request of submission [i], which was answered, and is
    directly followed by a pause when ten divides [i]; and every
    submission that was answered is directly followed by its progress
    line.  A submission that fails is followed by no pause. *)
Theorem C9_pacing post routes :
  (∀ t1 s t2,
     trace (deploy_routes post routes) = t1 ++ Sleep s :: t2 →
     s = 1
     ∧ ∃ t0 i name,
         t1 = t0 ++ [Out (DeployedRoute i (length routes) name)]
         ∧ i mod 10 = 0)
  ∧ (∀ t1 i n name t2,
       trace (deploy_routes post routes)
       = t1 ++ Out (DeployedRoute i n name) :: t2 →
       n = length routes
       ∧ (∃ t0 route u net rest,
            t1 = t0 ++ [Http (CreateRoute route)]
            ∧ 1 ≤ i
            ∧ routes !! (i - 1) = Some route
            ∧ post i route = Answered u
            ∧ selectedNetworks route = net :: rest
            ∧ name = ref_name net)
       ∧ (i mod 10 = 0 → ∃ t3, t2 = Sleep 1 :: t3))
  ∧ (∀ k route u net rest,
       routes !! k = Some route →
       S k ≤ length (submissions (trace (deploy_routes post routes))) →
       post (S k) route = Answered u →
       selectedNetworks route = net :: rest →
       ∃ t1 t2,
         trace (deploy_routes post routes)
         = t1 ++ Http (CreateRoute route)
              :: Out (DeployedRoute (S k) (length routes) (ref_name net))
              :: t2).
Proof.
  rewrite deploy_routes_run. cbn [trace fst].
  split; [|split].
  - intros t1 s t2 H. destruct t1 as [|ev t1]; [discriminate|].
    injection H as <- H.
    destruct (deploy_loop_pause_after_tenth _ _ _ _ _ _ _ H)
      as (-> & t0 & i & name & -> & Hi).
    split; [done|].
    by exists (Out (DeployingRoutes (length routes)) :: t0), i, name.
  - intros t1 i n name t2 H. destruct t1 as [|ev t1]; [discriminate|].
    injection H as <- H.
    destruct (deploy_loop_progress _ _ _ _ _ _ _ _ _ H)
      as (-> & (t0 & k & route & u & net & rest & -> & -> & Hk & Hp & Hn
                & ->) & Hten).
    split; [done|]. split; [|done].
    exists (Out (DeployingRoutes (length routes)) :: t0), route, u, net, rest.
    replace (1 + k - 1) with k by lia.
    repeat split; try done. lia.
  - intros k route u net rest Hk Hlen Hp Hn.
    change (submissions (Out (DeployingRoutes (length routes)) :: ?t))
      with (submissions t) in Hlen.
    destruct (deploy_loop_reports post (length routes) 1 routes k route u
                net rest Hk Hlen Hp Hn) as (t1 & t2 & ->).
    by exists (Out (DeployingRoutes (length routes)) :: t1), t2.
Qed.

(** ** Whole runs *)

Example partial_catalog_run :
  main int_literal hosts_only_env
  = ([Out LoggingIn; Http GenerateToken;
      Out (GettingDeviceId (lit "FTD_NAME")); Http ListDevices;
      Out GettingExistingObjects;
      Out FetchingNetworkObjects; Http ListNetworks;
      Out (ErrorGettingNetworkObjects (lit "500 Server Error"));
      Out FetchingHostObjects; Http ListHosts;
      Out (FoundHostObject (lit "obj-10.1.1.1"));
      Out (FoundHostObject (lit "obj-10.2.2.2"));
      Out (TotalObjectsFound 0 2);
      Out ParsingAndPreparing; Out ParsingRoutes;
      Out (FoundExistingObject (lit "obj-10.1.1.1") (lit "10.1.1.1"));
      Out (FoundExistingObject (lit "obj-10.2.2.2") (lit "10.2.2.2"));
      Out (PreparedRoute (lit "10.2.2.2") (lit "255.255.255.255")
             (lit "10.1.1.1"));
      Out (ReadyToDeploy 1); Input;
      Out (DeployingRoutes 1);
      Http (CreateRoute
              {| interfaceName := lit "inside";
                 selectedNetworks :=
                   [ {| ref_type := lit "Host"; ref_id := lit "H2";
                        ref_name := lit "obj-10.2.2.2" |} ];
                 gateway :=
                   {| object := {| ref_type := lit "Host"; ref_id := lit "H1";
                                   ref_name := lit "obj-10.1.1.1" |} |};
                 metricValue := 1;
                 route_type := lit "IPv4StaticRoute";
                 isTunneled := false |});
      Out (DeployedRoute 1 1 (lit "obj-10.2.2.2"));
      Out DeploymentComplete],
     Return tt).
Proof. vm_compute. reflexivity. Qed.

(** The worked example end to end, with the objects as FMC lists them
    (named [net-101] and [gw-111]): the batch is rejected, and no route is
    submitted. *)
Example worked_example_end_to_end :
  result (main int_literal
            {| env_auth := Answered tt;
               env_devices :=
                 Answered [ {[ lit "name" := lit "FTD_NAME";
                               lit "id" := lit "D1" ]} ];
               env_networks := Answered [net_101];
               env_hosts := Answered [gw_111];
               env_routes_file := [example_line];
               env_confirm := true;
               env_post := λ _ _, Answered tt |})
  = Exit 1.
Proof. vm_compute. reflexivity. Qed.

(** * Further properties of the code *)

(** ** Traces of composed pieces *)

Lemma trace_bind {A B} (m : M A) (k : A → M B) :
  trace (bind m k)
  = trace m ++ match result m with
               | Return a => trace (k a)
               | _ => []
               end.
Proof.
  destruct m as [t [a| |]]; cbn [trace result fst snd];
    rewrite ?bind_Return, ?app_nil_r; reflexivity.
Qed.

Lemma requests_app t1 t2 : requests (t1 ++ t2) = requests t1 ++ requests t2.
Proof. apply omap_app. Qed.

Lemma requests_diag t : Forall is_diag t → requests t = [].
Proof.
  induction 1 as [|ev t [d ->] _ IH]; [done|]. exact IH.
Qed.

Lemma quiet_bind {A B} (m : M A) (k : A → M B) :
  quiet m → (∀ a, quiet (k a)) → quiet (bind m k).
Proof.
  unfold quiet. intros Hm Hk. rewrite trace_bind. apply Forall_app.
  split; [done|]. destruct (result m); [apply Hk | constructor..].
Qed.

Lemma quiet_ret {A} (a : A) : quiet (ret a).
Proof. constructor. Qed.

Lemma quiet_print d : quiet (print d).
Proof. repeat constructor. by eexists. Qed.

Lemma quiet_raise {A} e : quiet (@raise A e).
Proof. constructor. Qed.

Lemma quiet_sys_exit {A} c : quiet (@sys_exit A c).
Proof. constructor. Qed.

Lemma quiet_getitem obj key : quiet (getitem obj key).
Proof. unfold getitem. destruct (obj !! key); constructor. Qed.

Lemma quiet_for_each {A S} (body : S → A → M S) xs s :
  (∀ s x, quiet (body s x)) → quiet (for_each body xs s).
Proof.
  intros Hb. revert s. induction xs as [|x xs IH]; intros s.
  - apply quiet_ret.
  - rewrite for_each_cons. by apply quiet_bind.
Qed.

Ltac quiet_tac :=
  repeat first
    [ apply quiet_ret | apply quiet_print | apply quiet_raise
    | apply quiet_sys_exit | apply quiet_getitem
    | apply quiet_bind; [|intros ?]
    | rewrite mbind_unfold ].

Lemma quiet_find_or_create_object self value mask :
  quiet (find_or_create_object self value mask).
Proof.
  unfold find_or_create_object.
  destruct (_ !! _); quiet_tac.
Qed.

Lemma quiet_process_line py_int self acc line :
  quiet (process_line py_int self acc line).
Proof.
  unfold process_line. rewrite mbind_unfold. apply quiet_bind.
  - unfold parse_line.
    destruct (split (strip line)) as [|a [|b [|c [|d [|e [|f [|h rest]]]]]]];
      try apply quiet_ret.
    destruct (decide _); [|apply quiet_ret].
    destruct (py_int f); [apply quiet_ret | apply quiet_raise].
  - intros [intent|]; [|apply quiet_ret].
    rewrite mbind_unfold. apply quiet_bind.
    + unfold resolve. rewrite mbind_unfold. apply quiet_bind;
        [apply quiet_find_or_create_object|].
      intros gw. destruct (truthy gw); [|apply quiet_ret].
      rewrite mbind_unfold. apply quiet_bind;
        [apply quiet_find_or_create_object|].
      intros net. destruct (truthy net); apply quiet_ret.
    + intros [net_obj gw_obj|d]; [|apply quiet_ret].
      unfold build_route. quiet_tac.
Qed.

Lemma quiet_parse_and_prepare_routes py_int self lines :
  quiet (parse_and_prepare_routes py_int self lines).
Proof.
  unfold parse_and_prepare_routes, scan. rewrite !mbind_unfold.
  apply quiet_bind.
  - apply quiet_bind; [apply quiet_print|]. intros _.
    apply quiet_for_each. intros. apply quiet_process_line.
  - intros acc. destruct (decide _); [|apply quiet_ret].
    rewrite !mbind_unfold. apply quiet_bind; [apply quiet_print|].
    intros _. apply quiet_bind.
    + apply quiet_for_each. intros. apply quiet_print.
    + intros _. quiet_tac.
Qed.

(** ** Lines that are not routes, and blanks around a line *)

Lemma for_each_route_lines py_int self lines acc :
  for_each (process_line py_int self) (filter route_shape lines) acc
  = for_each (process_line py_int self) lines acc.
Proof.
  revert acc. induction lines as [|line lines IH]; intros acc; [done|].
  rewrite filter_cons. destruct (decide (route_shape line)) as [H|H].
  - rewrite !for_each_cons. apply bind_ext. intros acc'. apply IH.
  - rewrite for_each_cons,
      (process_line_skip _ _ _ _ (parse_line_other _ _ H)), bind_ret_l.
    apply IH.
Qed.

(** X1: [parse_and_prepare_routes] ignores every line that is not a
    six-token [route] line: its trace and its outcome are those of the
    file with these lines taken out. *)
Theorem non_route_lines_are_ignored (py_int : str → option Z) self lines :
  parse_and_prepare_routes py_int self lines
  = parse_and_prepare_routes py_int self (filter route_shape lines).
Proof.
  unfold parse_and_prepare_routes, scan.
  by rewrite for_each_route_lines.
Qed.

Lemma split_from_spaces_r cur ws :
  Forall (λ c, is_space c = true) ws →
  split_from cur ws = split_from cur [].
Proof.
  intros H. revert cur. induction H as [|c ws Hc _ IH]; intros cur; [done|].
  simpl. rewrite Hc. destruct cur as [|x cur]; [apply IH|].
  by rewrite IH.
Qed.

Lemma split_from_app_spaces cur s ws :
  Forall (λ c, is_space c = true) ws →
  split_from cur (s ++ ws) = split_from cur s.
Proof.
  intros H. revert cur. induction s as [|c s IH]; intros cur.
  - by apply split_from_spaces_r.
  - simpl. destruct (is_space c), cur; by rewrite ?IH.
Qed.

Lemma split_spaces_app ws s :
  Forall (λ c, is_space c = true) ws → split (ws ++ s) = split s.
Proof.
  unfold split. induction 1 as [|c ws Hc _ IH]; [done|].
  simpl. by rewrite Hc.
Qed.

Lemma lstrip_spaces s :
  ∃ ws, Forall (λ c, is_space c = true) ws ∧ s = ws ++ lstrip s.
Proof.
  induction s as [|c s (ws & Hws & IH)]; [by exists []|].
  simpl. destruct (is_space c) eqn:Ec.
  - exists (c :: ws). split; [by constructor|]. by rewrite IH at 1.
  - by exists [].
Qed.

Lemma rstrip_spaces s :
  ∃ ws, Forall (λ c, is_space c = true) ws ∧ s = rstrip s ++ ws.
Proof.
  destruct (lstrip_spaces (rev s)) as (ws & Hws & E).
  exists (rev ws). split; [by apply Forall_rev|].
  unfold rstrip. rewrite <- rev_app_distr, <- E. by rewrite rev_involutive.
Qed.

(** On what [split] returns, the [strip] of line 117 changes nothing. *)
Lemma split_strip s : split (strip s) = split s.
Proof.
  destruct (lstrip_spaces s) as (ws1 & H1 & E1).
  destruct (rstrip_spaces (lstrip s)) as (ws2 & H2 & E2).
  transitivity (split (lstrip s)).
  - transitivity (split (rstrip (lstrip s) ++ ws2)).
    + symmetry. by apply split_from_app_spaces.
    + by rewrite <- E2.
  - rewrite <- (split_spaces_app ws1 (lstrip s) H1). by rewrite <- E1.
Qed.

(** X2: blanks before and after a line (indentation, trailing spaces, the
    end of line) do not change how it is read: with whitespace added on
    both sides [parse_line] gives the same intent, the same skip or the
    same [ValueError]. *)
Theorem parse_line_ignores_outer_blanks (py_int : str → option Z)
    line before after :
  Forall (λ c, is_space c = true) before →
  Forall (λ c, is_space c = true) after →
  parse_line py_int (before ++ line ++ after) = parse_line py_int line.
Proof.
  intros Hb Ha. unfold parse_line. rewrite !split_strip.
  rewrite (split_spaces_app _ _ Hb). unfold split.
  by rewrite (split_from_app_spaces _ _ _ Ha).
Qed.

(** X2, witness: the worked example's line, indented by a tab and two
    spaces and ended by a carriage return and a line feed. *)
Lemma parse_line_ignores_outer_blanks_witness :
  parse_line int_literal ([9; 32; 32]%N ++ example_line ++ [13; 10]%N)
  = parse_line int_literal example_line.
Proof.
  apply (parse_line_ignores_outer_blanks int_literal example_line
           [9; 32; 32]%N [13; 10]%N);
    repeat constructor.
Defined.

(** ** The device lookup *)

Lemma search_device_absent devices device_name :
  Forall (λ d, ∃ n, d !! lit "name" = Some n ∧ n ≠ device_name) devices →
  search_device devices device_name = ret false.
Proof.
  induction 1 as [|d devices (n & Hn & Hne) _ IH]; [done|].
  simpl. unfold getitem. rewrite Hn, mbind_unfold, bind_ret_l.
  by destruct (decide (n = device_name)).
Qed.

Lemma search_device_found devices device_name :
  Forall device_complete devices →
  (∃ d, d ∈ devices ∧ d !! lit "name" = Some device_name) →
  search_device devices device_name = ret true.
Proof.
  induction 1 as [|d devices ([n Hn] & [i Hi]) _ IH]; intros (d' & Hin & Hd').
  - by apply elem_of_nil in Hin.
  - simpl. unfold getitem. rewrite Hn, mbind_unfold, bind_ret_l.
    destruct (decide (n = device_name)) as [->|Hne].
    + by rewrite Hi, mbind_unfold, bind_ret_l.
    + apply IH. apply elem_of_cons in Hin as [->|Hin]; [congruence|].
      by exists d'.
Qed.

(** X3: on a device listing whose entries all carry a name and an id,
    [get_device_id] returns, after the one listing request and without
    printing, exactly when a listed device has the name asked for; when none
    has, it prints that the device was not found and exits with 1. *)
Theorem get_device_id_finds_listed_device devices device_name :
  Forall device_complete devices →
  (get_device_id (Answered devices) device_name = ([Http ListDevices], Return tt)
   ↔ ∃ d, d ∈ devices ∧ d !! lit "name" = Some device_name)
  ∧ (¬ (∃ d, d ∈ devices ∧ d !! lit "name" = Some device_name) →
     get_device_id (Answered devices) device_name
     = ([Http ListDevices; Out (DeviceNotFound device_name)], Exit 1)).
Proof.
  intros Hwf.
  assert (¬ (∃ d, d ∈ devices ∧ d !! lit "name" = Some device_name) →
          get_device_id (Answered devices) device_name
          = ([Http ListDevices; Out (DeviceNotFound device_name)], Exit 1))
    as Habsent.
  { intros Hno. unfold get_device_id.
    rewrite search_device_absent; [by msimpl|].
    apply Forall_forall. intros d Hin.
    destruct (proj1 (Forall_forall _ _) Hwf d Hin) as ([n Hn] & _).
    exists n. split; [done|]. intros ->. apply Hno. by exists d. }
  split; [|done]. split.
  - intros Hrun.
    destruct (decide (Exists (λ d, d !! lit "name" = Some device_name) devices))
      as [Hex|Hno].
    + by apply Exists_exists in Hex.
    + rewrite Habsent in Hrun; [discriminate|].
      intros Hex. apply Hno, Exists_exists. done.
  - intros Hex. unfold get_device_id.
    rewrite (search_device_found _ _ Hwf Hex). by msimpl.
Qed.

(** X3, witness: two complete devices, the second the one asked for. *)
Lemma get_device_id_finds_listed_device_witness :
  (get_device_id
     (Answered [ {[ lit "name" := lit "edge-1"; lit "id" := lit "D1" ]};
                 {[ lit "name" := lit "FTD_NAME"; lit "id" := lit "D3" ]} ])
     DEVICE_NAME
   = ([Http ListDevices], Return tt)
   ↔ ∃ d, d ∈ [ ({[ lit "name" := lit "edge-1"; lit "id" := lit "D1" ]}
                   : fmc_object);
                {[ lit "name" := lit "FTD_NAME"; lit "id" := lit "D3" ]} ]
          ∧ d !! lit "name" = Some DEVICE_NAME)
  ∧ (¬ (∃ d, d ∈ [ ({[ lit "name" := lit "edge-1"; lit "id" := lit "D1" ]}
                      : fmc_object);
                   {[ lit "name" := lit "FTD_NAME"; lit "id" := lit "D3" ]} ]
             ∧ d !! lit "name" = Some DEVICE_NAME) →
     get_device_id
       (Answered [ {[ lit "name" := lit "edge-1"; lit "id" := lit "D1" ]};
                   {[ lit "name" := lit "FTD_NAME"; lit "id" := lit "D3" ]} ])
       DEVICE_NAME
     = ([Http ListDevices; Out (DeviceNotFound DEVICE_NAME)], Exit 1)).
Proof.
  apply (get_device_id_finds_listed_device
           [ {[ lit "name" := lit "edge-1"; lit "id" := lit "D1" ]};
             {[ lit "name" := lit "FTD_NAME"; lit "id" := lit "D3" ]} ]
           DEVICE_NAME).
  unfold device_complete. apply (bool_decide_unpack _). vm_compute. exact I.
Defined.

(** X4: a listed device without a [name], met before any device of the
    name asked for, ends [get_device_id] with an uncaught [KeyError]: the
    devices listed after it are not examined, nothing is printed and the
    run does not exit through [sys.exit]. *)
Theorem get_device_id_nameless_device before nameless after device_name :
  Forall (λ d, ∃ n, d !! lit "name" = Some n ∧ n ≠ device_name) before →
  nameless !! lit "name" = None →
  get_device_id (Answered (before ++ nameless :: after)) device_name
  = ([Http ListDevices], Raise (KeyError (lit "name"))).
Proof.
  intros Hb Hn. unfold get_device_id.
  assert (search_device (before ++ nameless :: after) device_name
          = raise (KeyError (lit "name"))) as ->; [|by msimpl].
  induction Hb as [|d before (n & Hd & Hne) _ IH]; simpl.
  - unfold getitem. by rewrite Hn.
  - unfold getitem. rewrite Hd, mbind_unfold, bind_ret_l.
    by destruct (decide (n = device_name)).
Qed.

(** X4, witness: the device asked for is listed, after a nameless one. *)
Lemma get_device_id_nameless_device_witness :
  get_device_id
    (Answered ([ {[ lit "name" := lit "edge-1"; lit "id" := lit "D1" ]} ]
               ++ {[ lit "id" := lit "D2" ]}
               :: [ {[ lit "name" := lit "FTD_NAME"; lit "id" := lit "D3" ]} ]))
    DEVICE_NAME
  = ([Http ListDevices], Raise (KeyError (lit "name"))).
Proof.
  apply (get_device_id_nameless_device
           [ {[ lit "name" := lit "edge-1"; lit "id" := lit "D1" ]} ]
           {[ lit "id" := lit "D2" ]}
           [ {[ lit "name" := lit "FTD_NAME"; lit "id" := lit "D3" ]} ]
           DEVICE_NAME).
  - constructor; [|constructor].
    exists (lit "edge-1"). split; [vm_compute; reflexivity|].
    vm_compute. discriminate.
  - vm_compute. reflexivity.
Defined.

(** ** More on the object catalog *)

Lemma last_named_None name items :
  name ∉ names items → last_named name items = None.
Proof.
  intros Hn. destruct (last_named name items) as [obj|] eqn:E; [|done].
  destruct Hn. unfold last_named in E. apply last_Some_elem_of in E.
  apply list_elem_of_filter in E as [Hname Hin].
  unfold names. apply list_elem_of_omap. by exists obj.
Qed.

Lemma last_named_elem_of name items obj :
  last_named name items = Some obj → obj ∈ items.
Proof.
  unfold last_named. intros H. apply last_Some_elem_of in H.
  by apply list_elem_of_filter in H as [_ ?].
Qed.

Lemma loaded_lookup listing cache key :
  loaded listing cache !! key
  = match last_named key (listed listing) with
    | Some obj => Some obj
    | None => cache !! key
    end.
Proof. destruct listing; [apply lookup_loaded_items | done]. Qed.

Lemma loaded_idem listing cache :
  loaded listing (loaded listing cache) = loaded listing cache.
Proof.
  apply map_eq. intros key. rewrite !loaded_lookup.
  by destruct (last_named key (listed listing)).
Qed.

(** X5: [get_existing_objects] never removes or changes the entry of a
    name that the new listing does not carry (so entries of objects since
    deleted in FMC stay), also when a request fails; and calling it again
    with the same two listings leaves both caches as they are. *)
Theorem catalog_load_keeps_other_entries self networks hosts :
  ∃ fmc,
    result (get_existing_objects self networks hosts) = Return fmc
    ∧ (∀ key, key ∉ listed_names networks →
              network_objects fmc !! key = network_objects self !! key)
    ∧ (∀ key, key ∉ listed_names hosts →
              host_objects fmc !! key = host_objects self !! key)
    ∧ result (get_existing_objects fmc networks hosts) = Return fmc.
Proof.
  rewrite get_existing_objects_run. eexists. split; [reflexivity|].
  cbn [network_objects host_objects]. split; [|split].
  - intros key Hk. by rewrite loaded_lookup, last_named_None.
  - intros key Hk. by rewrite loaded_lookup, last_named_None.
  - rewrite get_existing_objects_run. cbn [result snd network_objects host_objects].
    by rewrite !loaded_idem.
Qed.

Lemma names_cons obj items :
  names (obj :: items)
  = match obj !! lit "name" with
    | Some name => name :: names items
    | None => names items
    end.
Proof. reflexivity. Qed.

Lemma dom_loaded_items (items : list fmc_object)
    (cache : gmap str fmc_object) :
  dom (foldl index_by_name cache items)
  = dom cache ∪ list_to_set (names items).
Proof.
  revert cache. induction items as [|obj items IH]; intros cache.
  - simpl. set_solver.
  - cbn [foldl]. rewrite IH, names_cons. unfold index_by_name.
    destruct (obj !! lit "name") as [name|].
    + rewrite dom_insert_L, list_to_set_cons. set_solver.
    + done.
Qed.

Lemma size_loaded listing :
  size (loaded listing (∅ : gmap str fmc_object))
  = length (remove_dups (listed_names listing)).
Proof.
  rewrite <- size_dom.
  assert (dom (loaded listing (∅ : gmap str fmc_object))
          = list_to_set (remove_dups (listed_names listing))) as ->.
  { unfold listed_names. destruct listing as [items|e]; simpl.
    - rewrite dom_loaded_items, dom_empty_L. apply set_eq. intros x.
      rewrite elem_of_union, !elem_of_list_to_set, elem_of_remove_dups.
      set_solver.
    - apply dom_empty_L. }
  apply size_list_to_set, NoDup_remove_dups.
Qed.

(** X6: the summary that ends [get_existing_objects] on a fresh converter
    counts, for each kind, the distinct names of the listed objects (none
    for a failed request): objects without a name and repeated names are
    not counted. *)
Theorem catalog_summary_counts_distinct_names networks hosts :
  last (trace (get_existing_objects init networks hosts))
  = Some (Out (TotalObjectsFound
                 (length (remove_dups (listed_names networks)))
                 (length (remove_dups (listed_names hosts))))).
Proof.
  rewrite get_existing_objects_run. cbn [trace fst init network_objects
                                         host_objects].
  rewrite !size_loaded, !app_assoc. apply last_snoc.
Qed.

(** X7: after the catalog is loaded on a fresh converter, whatever the
    two requests came to, [find_or_create_object] never raises, and an
    object it returns is one of the objects listed for the cache it read,
    named [obj-] followed by the value looked up. *)
Theorem found_object_is_named_after_value networks hosts value mask :
  (∃ r, result (fmc ← get_existing_objects init networks hosts;
                find_or_create_object fmc value mask) = Return r)
  ∧ (∀ obj,
       result (fmc ← get_existing_objects init networks hosts;
               find_or_create_object fmc value mask) = Return (Some obj) →
       obj !! lit "name" = Some (lit "obj-" ++ value)
       ∧ obj ∈ listed (if is_host mask then hosts else networks)).
Proof.
  assert (result (fmc ← get_existing_objects init networks hosts;
                  find_or_create_object fmc value mask)
          = Return (last_named (lit "obj-" ++ value)
                      (listed (if is_host mask then hosts else networks))))
    as ->.
  { rewrite mbind_unfold, result_bind, get_existing_objects_run.
    cbn [result snd]. rewrite result_find_or_create_object_keyed.
    - unfold partition_of. cbn [network_objects host_objects init].
      destruct (is_host mask); rewrite loaded_lookup, lookup_empty;
        by destruct (last_named _ _).
    - unfold partition_of. cbn [network_objects host_objects init].
      destruct (is_host mask);
        apply keyed_by_name_loaded, keyed_by_name_empty. }
  split; [by eexists|].
  intros obj [= H].
  split; [by eapply last_named_name | by eapply last_named_elem_of].
Qed.

(** ** The routes a scan returns *)

Lemma build_route_inv intent net_obj gw_obj t route :
  build_route intent net_obj gw_obj = (t, Return route) →
  ∃ nt ni nn gt gi gn,
    net_obj !! lit "type" = Some nt ∧ net_obj !! lit "id" = Some ni
    ∧ net_obj !! lit "name" = Some nn
    ∧ gw_obj !! lit "type" = Some gt ∧ gw_obj !! lit "id" = Some gi
    ∧ gw_obj !! lit "name" = Some gn
    ∧ route = {| interfaceName := intent_interface intent;
                 selectedNetworks :=
                   [ {| ref_type := nt; ref_id := ni; ref_name := nn |} ];
                 gateway :=
                   {| object :=
                        {| ref_type := gt; ref_id := gi; ref_name := gn |} |};
                 metricValue := intent_metric intent;
                 route_type := lit "IPv4StaticRoute";
                 isTunneled := false |}.
Proof.
  unfold build_route, getitem.
  destruct (net_obj !! lit "type") as [nt|]; [|discriminate].
  destruct (net_obj !! lit "id") as [ni|]; [|discriminate].
  destruct (net_obj !! lit "name") as [nn|]; [|discriminate].
  destruct (gw_obj !! lit "type") as [gt|]; [|discriminate].
  destruct (gw_obj !! lit "id") as [gi|]; [|discriminate].
  destruct (gw_obj !! lit "name") as [gn|]; [|discriminate].
  msimpl. intros [= _ <-]. by exists nt, ni, nn, gt, gi, gn.
Qed.

(** The three ways an iteration of the loop ends normally. *)
Lemma process_line_Return_cases py_int self acc line t acc' :
  process_line py_int self acc line = (t, Return acc') →
  (parse_line py_int line = ret None ∧ acc' = acc)
  ∨ (∃ intent d,
       parse_line py_int line = ret (Some intent)
       ∧ result (resolve self intent) = Return (MissingReference d)
       ∧ acc' = (acc.1, acc.2 ∪ {[ d ]}))
  ∨ (∃ intent net_obj gw_obj t' route,
       parse_line py_int line = ret (Some intent)
       ∧ result (resolve self intent) = Return (Resolved net_obj gw_obj)
       ∧ build_route intent net_obj gw_obj = (t', Return route)
       ∧ acc' = (acc.1 ++ [route], acc.2)).
Proof.
  intros H. destruct (parse_line_cases py_int line) as [E|[E|[intent E]]].
  - rewrite (process_line_skip _ _ _ _ E) in H. injection H as _ <-.
    by left.
  - rewrite (process_line_raise _ _ _ _ E) in H. discriminate.
  - rewrite (process_line_intent _ _ _ _ _ E) in H.
    apply bind_Return_inv in H as (t1 & r & t2 & Hr & Hk & _).
    right. destruct r as [net_obj gw_obj|d]; unfold after_resolve in Hk.
    + right. rewrite mbind_unfold in Hk.
      apply bind_Return_inv in Hk as (t' & route & ? & Hb & Hk & _).
      rewrite mbind_unfold, bind_print in Hk. injection Hk as _ <-.
      exists intent, net_obj, gw_obj, t', route. by rewrite Hr.
    + left. injection Hk as _ <-. exists intent, d. by rewrite Hr.
Qed.

Lemma intents_cons py_int line lines :
  intents py_int (line :: lines)
  = match result (parse_line py_int line) with
    | Return (Some intent) => intent :: intents py_int lines
    | _ => intents py_int lines
    end.
Proof.
  unfold intents. cbn [omap list_omap].
  by destruct (result (parse_line py_int line)) as [[?|]| |].
Qed.

(** A scan that ends with nothing missing has appended one route for each
    line that reads as an intent, in order, each built from the entries its
    intent resolves to. *)
Lemma for_each_routes py_int self (R : RouteIntent → RoutePayload → Prop)
    lines acc t acc' :
  (∀ intent net_obj gw_obj t' route,
     result (resolve self intent) = Return (Resolved net_obj gw_obj) →
     build_route intent net_obj gw_obj = (t', Return route) →
     R intent route) →
  for_each (process_line py_int self) lines acc = (t, Return acc') →
  acc'.2 = ∅ →
  acc.2 = ∅
  ∧ ∃ new, acc'.1 = acc.1 ++ new ∧ Forall2 R (intents py_int lines) new.
Proof.
  intros HR. revert acc t. induction lines as [|line lines IH];
    intros acc t H Hempty.
  - injection H as _ <-. split; [done|]. exists [].
    split; [by rewrite app_nil_r | constructor].
  - rewrite for_each_cons in H.
    apply bind_Return_inv in H as (t1 & acc1 & t2 & H1 & H2 & _).
    destruct (IH _ _ H2 Hempty) as (Hempty1 & new & Hnew & Hall).
    rewrite intents_cons.
    apply process_line_Return_cases in H1
      as [[E ->]|[(intent & d & E & Hres & ->)
                 |(intent & net_obj & gw_obj & t' & route & E & Hres & Hb & ->)]].
    + rewrite E. cbn [result ret snd]. split; [done|]. by exists new.
    + cbn [snd] in Hempty1. exfalso.
      apply (non_empty_singleton_L (C:=gset str) d).
      apply empty_union_L in Hempty1. tauto.
    + rewrite E. cbn [result ret snd]. cbn [fst snd] in *.
      split; [done|]. exists (route :: new).
      split; [by rewrite Hnew, <- app_assoc|].
      constructor; [by eapply HR | done].
Qed.

Lemma parse_and_prepare_routes_Return_inv py_int self lines routes :
  result (parse_and_prepare_routes py_int self lines) = Return routes →
  ∃ t, for_each (process_line py_int self) lines start = (t, Return (routes, ∅)).
Proof.
  unfold parse_and_prepare_routes, scan.
  rewrite !mbind_unfold, bind_print, result_bind. cbn [result snd].
  destruct (for_each _ lines start) as [t [[routes' missing]| |]] eqn:E;
    cbn [result snd fst]; try discriminate.
  destruct (decide (missing ≠ ∅)) as [Hne|He].
  - rewrite !mbind_unfold, bind_print, report_missing_run, bind_Return,
      bind_print. discriminate.
  - intros [= <-]. exists t. f_equal. f_equal. f_equal.
    destruct (decide (missing = ∅)); [done | by destruct He].
Qed.

(** X8: when [parse_and_prepare_routes] returns, the list holds exactly
    one route for each line of the file that reads as an intent, in the
    order of the file, and each route carries its line's interface and
    metric, the fixed type and tunnel flag, and one selected network. *)
Theorem returned_routes_follow_the_file (py_int : str → option Z)
    self lines routes :
  result (parse_and_prepare_routes py_int self lines) = Return routes →
  Forall2 (λ intent route,
             interfaceName route = intent_interface intent
             ∧ metricValue route = intent_metric intent
             ∧ route_type route = lit "IPv4StaticRoute"
             ∧ isTunneled route = false
             ∧ length (selectedNetworks route) = 1)
          (intents py_int lines) routes.
Proof.
  intros (t & H)%parse_and_prepare_routes_Return_inv.
  eapply for_each_routes in H as (_ & new & Hnew & Hall); [| |done].
  - cbn [fst start app] in Hnew. subst new. exact Hall.
  - intros intent net_obj gw_obj t' route _ Hb.
    apply build_route_inv in Hb as (? & ? & ? & ? & ? & ? & _ & _ & _ & _ & _
                                    & _ & ->).
    done.
Qed.

(** X8, witness: the worked example, between a comment and a blank
    line. *)
Lemma returned_routes_follow_the_file_witness :
  Forall2 (λ intent route,
             interfaceName route = intent_interface intent
             ∧ metricValue route = intent_metric intent
             ∧ route_type route = lit "IPv4StaticRoute"
             ∧ isTunneled route = false
             ∧ length (selectedNetworks route) = 1)
          (intents int_literal [lit "! static routes"; example_line; lit ""])
          [example_payload].
Proof.
  apply (returned_routes_follow_the_file int_literal example_catalog
           [lit "! static routes"; example_line; lit ""] [example_payload]).
  vm_compute. reflexivity.
Defined.

(** ** From the listings to the routes *)

Lemma truthy_Some_inv obj d : truthy obj = Some d → obj = Some d.
Proof.
  unfold truthy. destruct obj as [o|]; [|done].
  by destruct (decide (o = ∅)).
Qed.

(** What a successful resolution returns are the two cache entries. *)
Lemma resolve_Resolved_inv self intent net_obj gw_obj :
  result (resolve self intent) = Return (Resolved net_obj gw_obj) →
  host_objects self !! (lit "obj-" ++ intent_gateway intent) = Some gw_obj
  ∧ partition_of self (Some (intent_netmask intent))
      !! (lit "obj-" ++ intent_network intent) = Some net_obj.
Proof.
  rewrite resolve_run. cbv zeta.
  destruct (host_objects self !! _) as [g|]; [|discriminate].
  destruct (g !! lit "name"); [|discriminate].
  destruct (partition_of self _ !! _) as [n|]; [|discriminate].
  destruct (n !! lit "name"); [|discriminate].
  by intros [= <- <-].
Qed.

Lemma keyed_by_name_partition_of self mask :
  keyed_by_name (network_objects self) →
  keyed_by_name (host_objects self) →
  keyed_by_name (partition_of self mask).
Proof. intros. unfold partition_of. by destruct (is_host mask). Qed.

(** X9: in a run that loads the catalog on a fresh converter and then
    reads the file, every route returned names, as its selected network,
    the object called [obj-<network>] and, as its gateway, the object
    called [obj-<gateway>], for the network and gateway tokens of its
    line: the names in the payloads are fixed by the addresses of the
    file. *)
Theorem returned_routes_name_obj_objects (py_int : str → option Z)
    networks hosts lines routes :
  result (fmc ← get_existing_objects init networks hosts;
          parse_and_prepare_routes py_int fmc lines) = Return routes →
  Forall2 (λ intent route,
             ref_name <$> selectedNetworks route
             = [lit "obj-" ++ intent_network intent]
             ∧ ref_name (object (gateway route))
               = lit "obj-" ++ intent_gateway intent)
          (intents py_int lines) routes.
Proof.
  rewrite mbind_unfold, result_bind, get_existing_objects_run.
  cbn [result snd].
  set (fmc := {| network_objects := loaded networks (network_objects init);
                 host_objects := loaded hosts (host_objects init) |}).
  assert (keyed_by_name (network_objects fmc)) as Hn
    by apply keyed_by_name_loaded, keyed_by_name_empty.
  assert (keyed_by_name (host_objects fmc)) as Hh
    by apply keyed_by_name_loaded, keyed_by_name_empty.
  intros (t & H)%parse_and_prepare_routes_Return_inv.
  eapply for_each_routes in H as (_ & new & Hnew & Hall); [| |done].
  - cbn [fst start app] in Hnew. subst new. exact Hall.
  - intros intent net_obj gw_obj t' route Hres Hb.
    apply resolve_Resolved_inv in Hres as [Hg Hnet].
    apply Hh in Hg.
    apply (keyed_by_name_partition_of _ _ Hn Hh) in Hnet.
    apply build_route_inv in Hb
      as (nt & ni & nn & gt & gi & gn & _ & _ & Hnn & _ & _ & Hgn & ->).
    cbn. split; congruence.
Qed.

(** X9, witness: two host objects named after their addresses. *)
Lemma returned_routes_name_obj_objects_witness :
  Forall2 (λ intent route,
             ref_name <$> selectedNetworks route
             = [lit "obj-" ++ intent_network intent]
             ∧ ref_name (object (gateway route))
               = lit "obj-" ++ intent_gateway intent)
          (intents int_literal (env_routes_file hosts_only_env))
          (planned_routes int_literal hosts_only_env).
Proof.
  apply (returned_routes_name_obj_objects int_literal
           (env_networks hosts_only_env) (env_hosts hosts_only_env)).
  vm_compute. reflexivity.
Defined.

Lemma complete_catalog_loaded networks hosts :
  listing_complete networks →
  listing_complete hosts →
  complete_catalog {| network_objects := loaded networks ∅;
                      host_objects := loaded hosts ∅ |}.
Proof.
  intros Hn Hh key obj. cbn [network_objects host_objects].
  assert (∀ listing, listing_complete listing →
                     loaded listing ∅ !! key = Some obj →
                     complete_entry obj) as Hone.
  { intros listing Hl. rewrite loaded_lookup, lookup_empty.
    destruct (last_named key (listed listing)) as [o|] eqn:E; [|done].
    intros [= ->].
    pose proof (last_named_name _ _ _ E) as Hname.
    pose proof (last_named_elem_of _ _ _ E) as Hin.
    destruct listing as [items|e]; [|by apply elem_of_nil in Hin].
    cbn in Hl, Hin.
    destruct (proj1 (Forall_forall _ _) Hl obj Hin) as [? ?]; [by eexists|].
    split; [by eexists | done]. }
  intros [H|H]; eauto.
Qed.

(** X10: when every named object of the two listings carries a [type] and
    an [id], and every route line read from the file has a metric that
    [int] accepts, loading the catalog and reading the file ends in an
    exception only when the opening or the reading of the file raises one,
    and then in that exception, which nothing catches (a missing file:
    [FileNotFoundError], an [OSError], with no line read).  When the file
    is read to its end, either the routes are returned, or the run exits
    with 1 after reporting what is missing. *)
Theorem prepare_returns_or_exits (py_int : str → option Z)
    networks hosts file :
  listing_complete networks →
  listing_complete hosts →
  Forall (readable py_int) (lines_read file) →
  match read_error file with
  | None =>
      (∃ routes,
         result (fmc ← get_existing_objects init networks hosts;
                 parse_and_prepare_routes_reading py_int fmc file)
         = Return routes)
      ∨ result (fmc ← get_existing_objects init networks hosts;
                parse_and_prepare_routes_reading py_int fmc file) = Exit 1
  | Some e =>
      result (fmc ← get_existing_objects init networks hosts;
              parse_and_prepare_routes_reading py_int fmc file) = Raise e
  end.
Proof.
  intros Hn Hh Hlines.
  rewrite mbind_unfold, result_bind, get_existing_objects_run.
  cbn [result snd init network_objects host_objects].
  destruct (scan_completes py_int _ _ (complete_catalog_loaded _ _ Hn Hh)
              Hlines) as (t & [routes missing] & Hscan).
  unfold parse_and_prepare_routes_reading.
  destruct (read_error file) as [e|].
  - by rewrite mbind_unfold, Hscan, bind_Return.
  - unfold parse_and_prepare_routes.
    rewrite mbind_unfold, Hscan, bind_Return. cbn [fst snd].
    destruct (decide (missing ≠ ∅)).
    + right. rewrite !mbind_unfold, bind_print, report_missing_run,
        bind_Return, bind_print. reflexivity.
    + left. by eexists.
Qed.

(** X10, witness: the listings and the file of [hosts_only_env], read to
    its end. *)
Lemma prepare_returns_or_exits_witness :
  (∃ routes,
     result (fmc ← get_existing_objects init (env_networks hosts_only_env)
                     (env_hosts hosts_only_env);
             parse_and_prepare_routes_reading int_literal fmc
               {| lines_read := env_routes_file hosts_only_env;
                  read_error := None |}) = Return routes)
  ∨ result (fmc ← get_existing_objects init (env_networks hosts_only_env)
                    (env_hosts hosts_only_env);
            parse_and_prepare_routes_reading int_literal fmc
              {| lines_read := env_routes_file hosts_only_env;
                 read_error := None |}) = Exit 1.
Proof.
  apply (prepare_returns_or_exits int_literal (env_networks hosts_only_env)
           (env_hosts hosts_only_env)
           {| lines_read := env_routes_file hosts_only_env;
              read_error := None |}).
  - exact I.
  - cbn. apply (bool_decide_unpack _). vm_compute. exact I.
  - constructor; [|constructor]. intros _. vm_compute. by eexists.
Defined.

(** A routes file that does not exist: [open] raises after the first
    diagnostic, and nothing is read. *)
Example missing_routes_file self :
  parse_and_prepare_routes_reading int_literal self
    {| lines_read := []; read_error := Some OSError |}
  = ([Out ParsingRoutes], Raise OSError).
Proof. reflexivity. Qed.

(** A file that cannot be decoded after its first line: the line is
    processed, then the exception ends the call and no route is
    returned. *)
Example undecodable_routes_file :
  parse_and_prepare_routes_reading int_literal loaded_catalog
    {| lines_read := [example_line]; read_error := Some UnicodeDecodeError |}
  = ([Out ParsingRoutes;
      Out (FoundExistingObject (lit "obj-10.1.1.1") (lit "10.1.1.1"));
      Out (FoundExistingObject (lit "obj-10.1.1.0") (lit "10.1.1.0"));
      Out (PreparedRoute (lit "10.1.1.0") (lit "255.255.255.0")
             (lit "10.1.1.1"))],
     Raise UnicodeDecodeError).
Proof. vm_compute. reflexivity. Qed.

(** ** The number of pauses *)

Lemma pauses_app t1 t2 : pauses (t1 ++ t2) = pauses t1 + pauses t2.
Proof. unfold pauses. by rewrite filter_app, length_app. Qed.

Lemma progresses_app t1 t2 :
  progresses (t1 ++ t2) = progresses t1 + progresses t2.
Proof. unfold progresses. by rewrite filter_app, length_app. Qed.

Lemma pauses_deployed_step total i route name :
  pauses (deployed_step total i route name)
  = if decide (i mod 10 = 0) then 1 else 0.
Proof. unfold deployed_step. by destruct (decide (i mod 10 = 0)). Qed.

Lemma progresses_deployed_step total i route name :
  progresses (deployed_step total i route name) = 1.
Proof. unfold deployed_step. by destruct (decide (i mod 10 = 0)). Qed.

Lemma tenth_step d :
  (if decide (S d mod 10 = 0) then 1 else 0) + d / 10 = S d / 10.
Proof.
  pose proof (Nat.div_mod_eq d 10) as Hd.
  pose proof (Nat.div_mod_eq (S d) 10) as HS.
  pose proof (Nat.mod_upper_bound d 10 ltac:(done)) as Hlt.
  pose proof (Nat.mod_upper_bound (S d) 10 ltac:(done)) as HltS.
  destruct (decide (S d mod 10 = 0)); lia.
Qed.

(** With [d] routes deployed before it, the loop pauses once each time
    the count of deployed routes reaches a multiple of ten. *)
Lemma deploy_loop_pauses post total d routes :
  pauses (trace (deploy_loop post total (S d) routes)) + d / 10
  = (d + progresses (trace (deploy_loop post total (S d) routes))) / 10.
Proof.
  revert d. induction routes as [|r routes IH]; intros d.
  - cbn. by rewrite Nat.add_0_r.
  - rewrite deploy_loop_cons.
    destruct (selectedNetworks r) as [|net rest], (post (S d) r) as [u|e];
      cbn [trace fst]; try (cbn; by rewrite Nat.add_0_r).
    rewrite pauses_app, progresses_app, pauses_deployed_step,
      progresses_deployed_step.
    specialize (IH (S d)). pose proof (tenth_step d).
    replace (d + (1 + progresses (trace (deploy_loop post total (S (S d)) routes))))
      with (S d + progresses (trace (deploy_loop post total (S (S d)) routes)))
      by lia.
    lia.
Qed.

Lemma deploy_loop_all_progress post total i routes :
  (∀ k route, routes !! k = Some route →
              (∃ u, post (i + k) route = Answered u)
              ∧ selectedNetworks route ≠ []) →
  progresses (trace (deploy_loop post total i routes)) = length routes.
Proof.
  revert i. induction routes as [|r routes IH]; intros i Hall; [done|].
  rewrite deploy_loop_cons.
  destruct (Hall 0 r eq_refl) as [[u Hu] Hn]. rewrite Nat.add_0_r in Hu.
  rewrite Hu. destruct (selectedNetworks r) as [|net rest]; [done|].
  cbn [trace fst]. rewrite progresses_app, progresses_deployed_step.
  cbn [length]. f_equal. apply IH.
  intros k route Hk. replace (S i + k) with (i + S k) by lia.
  by apply Hall.
Qed.

(** X11: a deployment pauses as many times as ten goes into the number of
    routes it reports deployed; a deployment of [n] routes whose
    submissions are all answered reports [n] and so pauses [n / 10]
    times. *)
Theorem deployment_pauses_once_per_ten post routes :
  pauses (trace (deploy_routes post routes))
  = progresses (trace (deploy_routes post routes)) / 10
  ∧ ((∀ k route, routes !! k = Some route →
                 (∃ u, post (S k) route = Answered u)
                 ∧ selectedNetworks route ≠ []) →
     progresses (trace (deploy_routes post routes)) = length routes
     ∧ pauses (trace (deploy_routes post routes)) = length routes / 10).
Proof.
  rewrite deploy_routes_run. cbn [trace fst].
  change (pauses (Out (DeployingRoutes (length routes)) :: ?t))
    with (pauses t).
  change (progresses (Out (DeployingRoutes (length routes)) :: ?t))
    with (progresses t).
  pose proof (deploy_loop_pauses post (length routes) 0 routes) as H.
  rewrite Nat.add_0_r in H. cbn [Nat.add] in H.
  split; [done|]. intros Hall.
  rewrite H, (deploy_loop_all_progress post (length routes) 1 routes Hall).
  done.
Qed.

(** ** Whole runs: the order of the requests *)

Lemma quiet_search_device devices device_name :
  quiet (search_device devices device_name).
Proof.
  induction devices as [|d devices IH]; [apply quiet_ret|].
  cbn [search_device]. rewrite mbind_unfold.
  apply quiet_bind; [apply quiet_getitem|]. intros name.
  destruct (decide (name = device_name)); [|done]. quiet_tac.
Qed.

Lemma requests_login auth : requests (trace (login auth)) = [GenerateToken].
Proof. by destruct auth. Qed.

Lemma requests_get_device_id listing device_name :
  requests (trace (get_device_id listing device_name)) = [ListDevices].
Proof.
  unfold get_device_id. rewrite mbind_unfold, bind_emit. cbn [trace fst].
  change (requests (Http ListDevices :: ?t)) with (ListDevices :: requests t).
  f_equal. apply requests_diag.
  destruct listing as [devices|e].
  - rewrite mbind_unfold. apply quiet_bind; [apply quiet_search_device|].
    intros [|]; quiet_tac.
  - quiet_tac.
Qed.

Lemma requests_listing_trace found failed listing :
  requests (listing_trace found failed listing) = [].
Proof.
  apply requests_diag. destruct listing as [items|e]; cbn.
  - unfold found_trace. apply Forall_fmap, Forall_true. intros name.
    by eexists.
  - repeat constructor. by eexists.
Qed.

Lemma requests_get_existing_objects self networks hosts :
  requests (trace (get_existing_objects self networks hosts))
  = [ListNetworks; ListHosts].
Proof.
  rewrite get_existing_objects_run. cbn [trace fst].
  rewrite !requests_app, !requests_listing_trace. reflexivity.
Qed.

Lemma requests_deploy_loop post total i routes :
  requests (trace (deploy_loop post total i routes))
  = CreateRoute <$> submissions (trace (deploy_loop post total i routes)).
Proof.
  revert i. induction routes as [|r routes IH]; intros i; [done|].
  rewrite deploy_loop_cons.
  destruct (selectedNetworks r) as [|net rest], (post i r) as [u|e];
    cbn [trace fst]; try reflexivity.
  rewrite requests_app, submissions_app, fmap_app, IH. f_equal.
  unfold deployed_step. by destruct (decide (i mod 10 = 0)).
Qed.

Lemma requests_deploy_routes post routes :
  requests (trace (deploy_routes post routes))
  = CreateRoute <$> submissions (trace (deploy_routes post routes)).
Proof.
  rewrite deploy_routes_run. cbn [trace fst]. apply requests_deploy_loop.
Qed.

Lemma submissions_deploy_routes_prefix post routes :
  submissions (trace (deploy_routes post routes)) `prefix_of` routes.
Proof.
  rewrite deploy_routes_run. cbn [trace fst]. apply deploy_loop_prefix.
Qed.

(** A deployment that returns has submitted every route. *)
Lemma deploy_loop_Return post total i routes :
  result (deploy_loop post total i routes) = Return tt →
  submissions (trace (deploy_loop post total i routes)) = routes.
Proof.
  revert i. induction routes as [|r routes IH]; intros i; [done|].
  rewrite deploy_loop_cons.
  destruct (selectedNetworks r) as [|net rest], (post i r) as [u|e];
    cbn [trace result fst snd]; try discriminate.
  intros H. rewrite submissions_app, submissions_deployed_step, (IH _ H).
  done.
Qed.

Lemma main_unfold py_int env :
  main py_int env
  = bind (print LoggingIn) (λ _,
      bind (login (env_auth env)) (λ _,
        bind (print (GettingDeviceId DEVICE_NAME)) (λ _,
          bind (get_device_id (env_devices env) DEVICE_NAME) (λ _,
            main_from_catalog py_int env)))).
Proof. reflexivity. Qed.

Lemma get_existing_objects_result self networks hosts :
  result (get_existing_objects self networks hosts)
  = Return {| network_objects := loaded networks (network_objects self);
              host_objects := loaded hosts (host_objects self) |}.
Proof. by rewrite get_existing_objects_run. Qed.

Lemma planned_routes_unfold py_int env :
  planned_routes py_int env
  = match result (parse_and_prepare_routes py_int
                    {| network_objects := loaded (env_networks env) ∅;
                       host_objects := loaded (env_hosts env) ∅ |}
                    (env_routes_file env)) with
    | Return routes => routes
    | _ => []
    end.
Proof.
  unfold planned_routes.
  by rewrite mbind_unfold, result_bind, get_existing_objects_result.
Qed.

Lemma requests_main_from_catalog py_int env :
  requests (trace (main_from_catalog py_int env))
  = [ListNetworks; ListHosts]
      ++ (if env_confirm env
          then CreateRoute
                 <$> submissions (trace (deploy_routes (env_post env)
                                           (planned_routes py_int env)))
          else []).
Proof.
  rewrite planned_routes_unfold. unfold main_from_catalog.
  rewrite ?mbind_unfold, bind_print. cbn [trace fst].
  change (requests (Out GettingExistingObjects :: ?t)) with (requests t).
  rewrite trace_bind, requests_app, requests_get_existing_objects,
    get_existing_objects_result. f_equal.
  cbn [init network_objects host_objects].
  rewrite ?mbind_unfold, bind_print. cbn [trace fst].
  change (requests (Out ParsingAndPreparing :: ?t)) with (requests t).
  rewrite trace_bind, requests_app,
    (requests_diag _ (quiet_parse_and_prepare_routes _ _ _)).
  cbn [app].
  destruct (result (parse_and_prepare_routes _ _ _)) as [routes| |].
  2, 3: by destruct (env_confirm env).
  rewrite ?mbind_unfold, bind_print. cbn [trace fst].
  rewrite ?mbind_unfold, bind_emit. cbn [trace fst].
  change (requests (Out (ReadyToDeploy (length routes)) :: Input :: ?t))
    with (requests t).
  rewrite ?mbind_unfold.
  destruct (env_confirm env).
  - rewrite bind_ret_l, ?mbind_unfold, trace_bind, requests_app,
      requests_deploy_routes.
    destruct (result (deploy_routes _ _)); cbn; by rewrite app_nil_r.
  - by rewrite ?mbind_unfold, bind_print.
Qed.

(** ** Whole runs: how they end *)

Lemma bind_pair {A B} (m : M A) (k : A → M B) :
  bind m k
  = (trace m ++ match result m with
                | Return a => trace (k a)
                | _ => []
                end,
     match result m with
     | Return a => result (k a)
     | Exit c => Exit c
     | Raise e => Raise e
     end).
Proof.
  destruct m as [t [a| |]]; cbn [trace result fst snd];
    rewrite ?bind_Return, ?app_nil_r; reflexivity.
Qed.

(** The run from the catalog load on, by what the scan and the operator's
    answer come to. *)
Lemma main_from_catalog_run py_int env :
  main_from_catalog py_int env
  = let loading :=
      get_existing_objects init (env_networks env) (env_hosts env) in
    let scanning :=
      parse_and_prepare_routes py_int
        {| network_objects := loaded (env_networks env) ∅;
           host_objects := loaded (env_hosts env) ∅ |}
        (env_routes_file env) in
    let deploying := deploy_routes (env_post env) (planned_routes py_int env) in
    (Out GettingExistingObjects :: trace loading
       ++ Out ParsingAndPreparing :: trace scanning
       ++ match result scanning with
          | Return routes =>
              Out (ReadyToDeploy (length routes)) :: Input
                :: (if env_confirm env
                    then trace deploying
                           ++ match result deploying with
                              | Return _ => [Out DeploymentComplete]
                              | _ => []
                              end
                    else [Out DeploymentCancelled])
          | _ => []
          end,
     match result scanning with
     | Return routes =>
         if env_confirm env
         then match result deploying with
              | Return _ => Return tt
              | Exit c => Exit c
              | Raise e => Raise e
              end
         else Exit 0
     | Exit c => Exit c
     | Raise e => Raise e
     end).
Proof.
  cbv zeta. rewrite planned_routes_unfold. unfold main_from_catalog.
  rewrite ?mbind_unfold, bind_print. cbn [trace result fst snd].
  rewrite bind_pair, get_existing_objects_result.
  cbn [trace result fst snd init network_objects host_objects].
  rewrite ?mbind_unfold, bind_print. cbn [trace result fst snd].
  rewrite ?mbind_unfold, bind_pair. cbn [trace result fst snd].
  destruct (result (parse_and_prepare_routes _ _ _)) as [routes| |];
    try reflexivity.
  rewrite ?mbind_unfold, bind_print. cbn [trace result fst snd].
  rewrite ?mbind_unfold, bind_emit. cbn [trace result fst snd].
  rewrite ?mbind_unfold.
  destruct (env_confirm env).
  - rewrite bind_ret_l, ?mbind_unfold, bind_pair. cbn [trace result fst snd].
    by destruct (result (deploy_routes _ _)) as [[]| |].
  - by rewrite ?mbind_unfold, bind_print.
Qed.

(** The whole run, by what its stages come to. *)
Lemma main_run py_int env :
  main py_int env
  = (Out LoggingIn :: trace (login (env_auth env))
       ++ match result (login (env_auth env)) with
          | Return _ =>
              Out (GettingDeviceId DEVICE_NAME)
                :: trace (get_device_id (env_devices env) DEVICE_NAME)
                ++ match result (get_device_id (env_devices env) DEVICE_NAME)
                   with
                   | Return _ => trace (main_from_catalog py_int env)
                   | _ => []
                   end
          | _ => []
          end,
     match result (login (env_auth env)) with
     | Return _ =>
         match result (get_device_id (env_devices env) DEVICE_NAME) with
         | Return _ => result (main_from_catalog py_int env)
         | Exit c => Exit c
         | Raise e => Raise e
         end
     | Exit c => Exit c
     | Raise e => Raise e
     end).
Proof.
  rewrite main_unfold, bind_print. cbn [trace result fst snd].
  rewrite bind_pair.
  destruct (result (login (env_auth env))); try reflexivity.
  rewrite bind_print. cbn [trace result fst snd]. by rewrite bind_pair.
Qed.

Lemma submissions_requests t :
  submissions t
  = omap (λ r, match r with CreateRoute route => Some route | _ => None end)
         (requests t).
Proof.
  unfold submissions, requests.
  induction t as [|[d|[| | | |route]|s|] t IH]; simpl.
  all: first [done | exact IH | f_equal; exact IH].
Qed.

Lemma omap_CreateRoute (routes : list RoutePayload) :
  omap (λ r, match r with CreateRoute route => Some route | _ => None end)
       (CreateRoute <$> routes) = routes.
Proof.
  induction routes as [|r routes IH]; simpl; [done|]. f_equal. exact IH.
Qed.

Lemma submissions_main py_int env :
  submissions (trace (main py_int env))
  = match result (login (env_auth env)),
          result (get_device_id (env_devices env) DEVICE_NAME) with
    | Return _, Return _ =>
        if env_confirm env
        then submissions (trace (deploy_routes (env_post env)
                                   (planned_routes py_int env)))
        else []
    | _, _ => []
    end.
Proof.
  rewrite main_run. cbn [trace fst].
  change (submissions (Out LoggingIn :: ?t)) with (submissions t).
  rewrite submissions_app, (submissions_requests (trace (login _))),
    requests_login.
  cbn [omap list_omap app].
  destruct (result (login (env_auth env))); try reflexivity.
  change (submissions (Out (GettingDeviceId DEVICE_NAME) :: ?t))
    with (submissions t).
  rewrite submissions_app, (submissions_requests (trace (get_device_id _ _))),
    requests_get_device_id.
  cbn [omap list_omap app].
  destruct (result (get_device_id _ _)); try reflexivity.
  rewrite submissions_requests, requests_main_from_catalog.
  cbn [omap list_omap app].
  destruct (env_confirm env); [|done]. apply omap_CreateRoute.
Qed.

(** X12: the requests of a run come in one fixed order: the token, the
    device listing, the network listing, the host listing, and then the
    creation of the routes that [parse_and_prepare_routes] returned, in
    their order.  A run that ends normally has sent this whole sequence,
    and a run that stops early an initial part of it; no route is created
    before both listings were requested, and no request of another kind is
    ever sent. *)
Theorem main_requests_in_order (py_int : str → option Z) env :
  requests (trace (main py_int env))
    `prefix_of` [GenerateToken; ListDevices; ListNetworks; ListHosts]
                  ++ (CreateRoute <$> planned_routes py_int env)
  ∧ (result (main py_int env) = Return tt →
     requests (trace (main py_int env))
     = [GenerateToken; ListDevices; ListNetworks; ListHosts]
         ++ (CreateRoute <$> planned_routes py_int env)).
Proof.
  assert (requests (trace (main py_int env))
          = [GenerateToken]
              ++ match result (login (env_auth env)) with
                 | Return _ =>
                     [ListDevices]
                       ++ match result (get_device_id (env_devices env)
                                          DEVICE_NAME) with
                          | Return _ =>
                              requests (trace (main_from_catalog py_int env))
                          | _ => []
                          end
                 | _ => []
                 end) as Hreq.
  { rewrite main_run. cbn [trace fst].
    change (requests (Out LoggingIn :: ?t)) with (requests t).
    rewrite requests_app, requests_login. f_equal.
    destruct (result (login (env_auth env))); [|done..].
    change (requests (Out (GettingDeviceId DEVICE_NAME) :: ?t))
      with (requests t).
    rewrite requests_app, requests_get_device_id. f_equal.
    by destruct (result (get_device_id _ _)). }
  split.
  - rewrite Hreq. apply (prefix_app [GenerateToken]).
    destruct (result (login (env_auth env))); [|apply prefix_nil..].
    apply (prefix_app [ListDevices]).
    destruct (result (get_device_id _ _)); [|apply prefix_nil..].
    rewrite requests_main_from_catalog.
    apply (prefix_app [ListNetworks; ListHosts]).
    destruct (env_confirm env); [|apply prefix_nil].
    destruct (submissions_deploy_routes_prefix (env_post env)
                (planned_routes py_int env)) as [rest Hrest].
    exists (CreateRoute <$> rest). by rewrite <- fmap_app, <- Hrest.
  - intros Hret. rewrite Hreq. clear Hreq.
    rewrite main_run in Hret. cbn [result snd] in Hret.
    destruct (result (login (env_auth env))); [|discriminate..].
    destruct (result (get_device_id _ _)); [|discriminate..].
    rewrite requests_main_from_catalog.
    rewrite main_from_catalog_run in Hret. cbv zeta in Hret.
    cbn [result snd] in Hret.
    destruct (result (parse_and_prepare_routes _ _ _)); [|discriminate..].
    destruct (env_confirm env); [|discriminate].
    destruct (result (deploy_routes (env_post env)
                        (planned_routes py_int env)))
      as [[]| |] eqn:Edp; [|discriminate..].
    rewrite deploy_routes_run in Edp |- *.
    cbn [trace result fst snd] in *.
    change (submissions (Out (DeployingRoutes ?n) :: ?t))
      with (submissions t).
    by rewrite (deploy_loop_Return _ _ _ _ Edp).
Qed.

(** X12, witness: the run of [hosts_only_env] ends normally, and its
    requests are the whole sequence. *)
Lemma main_requests_in_order_witness :
  result (main int_literal hosts_only_env) = Return tt
  ∧ requests (trace (main int_literal hosts_only_env))
    = [GenerateToken; ListDevices; ListNetworks; ListHosts]
        ++ (CreateRoute <$> planned_routes int_literal hosts_only_env).
Proof.
  split; [vm_compute; reflexivity|].
  apply (proj2 (main_requests_in_order int_literal hosts_only_env)).
  vm_compute. reflexivity.
Defined.








(** X14: a run ends normally only if the operator confirmed, the scan
    returned its routes with nothing missing, and every one of these routes
    was submitted, in order; its last line then says that the deployment is
    complete. *)
Theorem completed_run_deployed_everything (py_int : str → option Z) env :
  result (main py_int env) = Return tt →
  env_confirm env = true
  ∧ result (fmc ← get_existing_objects init (env_networks env) (env_hosts env);
            parse_and_prepare_routes py_int fmc (env_routes_file env))
    = Return (planned_routes py_int env)
  ∧ submissions (trace (main py_int env)) = planned_routes py_int env
  ∧ ∃ t, trace (main py_int env) = t ++ [Out DeploymentComplete].
Proof.
  intros Hret. pose proof (submissions_main py_int env) as Hsub.
  pose proof (planned_routes_unfold py_int env) as Hplan.
  pose proof (main_run py_int env) as Hrun.
  rewrite Hrun in Hret. cbn [result snd] in Hret.
  destruct (result (login (env_auth env))) eqn:El; [|discriminate..].
  destruct (result (get_device_id (env_devices env) DEVICE_NAME)) eqn:Ed;
    [|discriminate..].
  pose proof (main_from_catalog_run py_int env) as Hcat. cbv zeta in Hcat.
  rewrite Hcat in Hret, Hrun. cbn [trace result fst snd] in Hret, Hrun.
  destruct (result (parse_and_prepare_routes py_int _ (env_routes_file env)))
    as [routes| |] eqn:Ep; [|discriminate..].
  destruct (env_confirm env) eqn:Ec; [|discriminate].
  destruct (result (deploy_routes (env_post env) (planned_routes py_int env)))
    as [[]| |] eqn:Edp; [|discriminate..].
  split; [done|]. split; [|split].
  - by rewrite mbind_unfold, result_bind, get_existing_objects_result, Hplan.
  - rewrite Hsub. rewrite deploy_routes_run in Edp |- *.
    cbn [trace result fst snd] in *.
    change (submissions (Out (DeployingRoutes ?n) :: ?t)) with (submissions t).
    by apply deploy_loop_Return.
  - rewrite Hrun. cbn [trace fst].
    eexists (Out LoggingIn :: trace (login (env_auth env))
               ++ Out (GettingDeviceId DEVICE_NAME)
               :: trace (get_device_id (env_devices env) DEVICE_NAME)
               ++ Out GettingExistingObjects
               :: trace (get_existing_objects init _ _)
               ++ Out ParsingAndPreparing :: trace _
               ++ Out (ReadyToDeploy (length routes)) :: Input
               :: trace (deploy_routes _ _)).
    cbn [app]. rewrite <- !app_assoc. cbn [app].
    repeat (f_equal; rewrite <- ?app_assoc; cbn [app]).
Qed.

(** X14, witness: the run of [hosts_only_env]. *)
Lemma completed_run_deployed_everything_witness :
  env_confirm hosts_only_env = true
  ∧ result (fmc ← get_existing_objects init (env_networks hosts_only_env)
                    (env_hosts hosts_only_env);
            parse_and_prepare_routes int_literal fmc
              (env_routes_file hosts_only_env))
    = Return (planned_routes int_literal hosts_only_env)
  ∧ submissions (trace (main int_literal hosts_only_env))
    = planned_routes int_literal hosts_only_env
  ∧ ∃ t, trace (main int_literal hosts_only_env)
         = t ++ [Out DeploymentComplete].
Proof.
  apply (completed_run_deployed_everything int_literal hosts_only_env).
  vm_compute. reflexivity.
Defined.

(** ** Whole runs: exit codes and exceptions *)

Lemma within_bind {A B} exits raises (m : M A) (k : A → M B) :
  within exits raises m → (∀ a, within exits raises (k a)) →
  within exits raises (bind m k).
Proof.
  unfold within. rewrite result_bind. intros Hm Hk.
  destruct (result m); [apply Hk | done..].
Qed.

Lemma within_ret {A} exits raises (a : A) : within exits raises (ret a).
Proof. done. Qed.

Lemma within_print exits raises d : within exits raises (print d).
Proof. done. Qed.

Lemma within_for_each {A S} exits raises (body : S → A → M S) xs s :
  (∀ s x, within exits raises (body s x)) →
  within exits raises (for_each body xs s).
Proof.
  intros Hb. revert s. induction xs as [|x xs IH]; intros s; [done|].
  rewrite for_each_cons. by apply within_bind.
Qed.

Lemma within_getitem exits obj key :
  key = lit "name" ∨ key = lit "type" ∨ key = lit "id" →
  within exits member_error (getitem obj key).
Proof.
  intros Hk. unfold within, getitem. destruct (obj !! key); [done|].
  cbn. unfold member_error. naive_solver.
Qed.

Lemma within_find_or_create_object exits self value mask :
  within exits member_error (find_or_create_object self value mask).
Proof.
  rewrite find_or_create_object_lookup. unfold within.
  destruct (_ !! _) as [obj|]; [|done].
  destruct (obj !! lit "name"); [done|]. cbn. by left.
Qed.

Lemma within_process_line py_int self acc line :
  within (λ _, False) (λ e, e = ValueError ∨ member_error e)
         (process_line py_int self acc line).
Proof.
  assert (∀ A (m : M A), within (λ _, False) member_error m →
            within (λ _, False) (λ e, e = ValueError ∨ member_error e) m)
    as Hweak.
  { intros A m. unfold within. destruct (result m); [done..|by right]. }
  destruct (parse_line_cases py_int line) as [E|[E|[intent E]]].
  - by rewrite (process_line_skip _ _ _ _ E).
  - rewrite (process_line_raise _ _ _ _ E). by left.
  - rewrite (process_line_intent _ _ _ _ _ E). apply within_bind.
    + apply Hweak. unfold resolve. rewrite mbind_unfold. apply within_bind;
        [apply within_find_or_create_object|].
      intros gw. destruct (truthy gw); [|done].
      rewrite mbind_unfold. apply within_bind;
        [apply within_find_or_create_object|].
      intros net. by destruct (truthy net).
    + intros [net_obj gw_obj|d]; [|done]. apply Hweak.
      unfold after_resolve. rewrite mbind_unfold. apply within_bind.
      * unfold build_route. rewrite ?mbind_unfold.
        repeat (apply within_bind; [apply within_getitem; tauto | intros ?];
                rewrite ?mbind_unfold).
        done.
      * intros route. by rewrite mbind_unfold, bind_print.
Qed.

Lemma within_parse_and_prepare_routes py_int self lines :
  within (λ c, c = 1%Z) (λ e, e = ValueError ∨ member_error e)
         (parse_and_prepare_routes py_int self lines).
Proof.
  unfold parse_and_prepare_routes, scan. rewrite !mbind_unfold.
  apply within_bind.
  - apply within_bind; [done|]. intros _. apply within_for_each.
    intros acc line. pose proof (within_process_line py_int self acc line) as H.
    unfold within in *. by destruct (result _).
  - intros acc. destruct (decide _); [|done].
    rewrite !mbind_unfold, bind_print, report_missing_run, bind_Return,
      bind_print. done.
Qed.

Lemma within_login auth :
  within (λ c, c = 1%Z) (λ _, False) (login auth).
Proof. by destruct auth. Qed.

Lemma within_search_device devices device_name :
  within (λ _, False) member_error (search_device devices device_name).
Proof.
  induction devices as [|d devices IH]; [done|].
  cbn [search_device]. rewrite mbind_unfold. apply within_bind;
    [apply within_getitem; tauto|].
  intros name. destruct (decide (name = device_name)); [|done].
  rewrite mbind_unfold. apply within_bind; [apply within_getitem; tauto|].
  done.
Qed.

Lemma within_get_device_id listing device_name :
  within (λ c, c = 1%Z) member_error (get_device_id listing device_name).
Proof.
  unfold get_device_id. rewrite mbind_unfold. apply within_bind; [done|].
  intros _. destruct listing as [devices|e]; [|done].
  rewrite mbind_unfold. apply within_bind.
  - pose proof (within_search_device devices device_name) as H.
    unfold within in *. by destruct (result _).
  - by intros [|].
Qed.

(** On routes that each name a network, the deployment returns or exits
    with 1. *)
Lemma within_deploy_loop post total i routes :
  Forall (λ route, selectedNetworks route ≠ []) routes →
  within (λ c, c = 1%Z) (λ _, False) (deploy_loop post total i routes).
Proof.
  intros H. revert i. induction H as [|r routes Hr _ IH]; intros i; [done|].
  rewrite deploy_loop_cons.
  destruct (selectedNetworks r) as [|net rest]; [done|].
  destruct (post i r); [apply IH | done].
Qed.

Lemma planned_routes_name_networks py_int env :
  Forall (λ route, selectedNetworks route ≠ []) (planned_routes py_int env).
Proof.
  rewrite planned_routes_unfold.
  destruct (result (parse_and_prepare_routes _ _ _)) as [routes| |] eqn:E;
    [|constructor..].
  apply parse_and_prepare_routes_Return_inv in E as (t & H).
  eapply (for_each_routes _ _ (λ _ route, selectedNetworks route ≠ []))
    in H as (_ & new & Hnew & Hall); [| |done].
  - cbn [fst start app] in Hnew. subst new.
    clear -Hall. induction Hall; by constructor.
  - intros intent net_obj gw_obj t' route _ Hb.
    by apply build_route_inv in Hb as (? & ? & ? & ? & ? & ? & _ & _ & _ & _
                                       & _ & _ & ->).
Qed.

Lemma within_scan py_int self lines :
  within (λ _, False) (λ e, e = ValueError ∨ member_error e)
         (scan py_int self lines).
Proof.
  unfold scan. rewrite mbind_unfold. apply within_bind; [done|].
  intros _. apply within_for_each. apply within_process_line.
Qed.

(** Every route [parse_and_prepare_routes] returns names a network. *)
Lemma returned_routes_name_networks py_int self lines routes :
  result (parse_and_prepare_routes py_int self lines) = Return routes →
  Forall (λ route, selectedNetworks route ≠ []) routes.
Proof.
  intros (t & H)%parse_and_prepare_routes_Return_inv.
  eapply (for_each_routes _ _ (λ _ route, selectedNetworks route ≠ []))
    in H as (_ & new & Hnew & Hall); [| |done].
  - cbn [fst start app] in Hnew. subst new.
    clear -Hall. induction Hall; by constructor.
  - intros intent net_obj gw_obj t' route _ Hb.
    by apply build_route_inv in Hb as (? & ? & ? & ? & ? & ? & _ & _ & _ & _
                                       & _ & _ & ->).
Qed.

(** The run in which neither the file nor the prompt raises is [main]. *)
Lemma main_with_None py_int env :
  main_with py_int env None None = main py_int env.
Proof.
  unfold main_with, main, parse_and_prepare_routes_reading, input.
  cbn [read_error lines_read].
  rewrite ?mbind_unfold. repeat (apply bind_ext; intros ?).
  reflexivity.
Qed.

(** X15: where the surroundings fail only by a request that raises a
    [RequestException], by [open] or the reading of the routes file
    raising, or by [input] raising, a run of [main] ends in one of these
    ways only: normally, and then neither the reading of the routes file
    nor the prompt raised;
    with exit code 1; with exit code 0, and then the prompt was answered
    and the operator had declined; with the [ValueError] of [int]; with a
    [KeyError] for [name], [type] or [id]; with the exception that ended
    the reading of the routes file (a missing file: [FileNotFoundError]);
    or with the exception of [input].  In particular the [IndexError] that
    [deploy_routes] can raise on a route without a selected network never
    occurs in a run, since every route [parse_and_prepare_routes] builds
    names one. *)
Theorem main_outcomes (py_int : str → option Z) env file_error input_error :
  match result (main_with py_int env file_error input_error) with
  | Return _ => file_error = None ∧ input_error = None
  | Exit c =>
      c = 1%Z
      ∨ (c = 0%Z ∧ env_confirm env = false
         ∧ file_error = None ∧ input_error = None)
  | Raise e =>
      e = ValueError ∨ member_error e
      ∨ file_error = Some e ∨ input_error = Some e
  end.
Proof.
  unfold main_with. rewrite ?mbind_unfold, bind_print. cbn [result snd].
  rewrite result_bind.
  pose proof (within_login (env_auth env)) as Hl. unfold within in Hl.
  destruct (result (login _)); [|by left|done].
  rewrite ?mbind_unfold, bind_print. cbn [result snd]. rewrite result_bind.
  pose proof (within_get_device_id (env_devices env) DEVICE_NAME) as Hd.
  unfold within in Hd.
  destruct (result (get_device_id _ _)); [|by left|by right; left].
  rewrite ?mbind_unfold, bind_print. cbn [result snd].
  rewrite result_bind, get_existing_objects_result.
  rewrite ?mbind_unfold, bind_print. cbn [result snd]. rewrite result_bind.
  unfold parse_and_prepare_routes_reading at 1. cbn [read_error lines_read].
  destruct file_error as [e|].
  - rewrite mbind_unfold, result_bind.
    pose proof (within_scan py_int
                  {| network_objects := loaded (env_networks env)
                                          (network_objects init);
                     host_objects := loaded (env_hosts env)
                                       (host_objects init) |}
                  (env_routes_file env)) as Hs. unfold within in Hs.
    destruct (result (scan _ _ _)); [|done|].
    + cbn. tauto.
    + tauto.
  - pose proof (within_parse_and_prepare_routes py_int
                  {| network_objects := loaded (env_networks env)
                                          (network_objects init);
                     host_objects := loaded (env_hosts env)
                                       (host_objects init) |}
                  (env_routes_file env)) as Hp. unfold within in Hp.
    destruct (result (parse_and_prepare_routes _ _ _)) as [routes| |] eqn:Ep;
      [|by left|tauto].
    apply returned_routes_name_networks in Ep.
    rewrite ?mbind_unfold, bind_print. cbn [result snd].
    rewrite result_bind. unfold input at 1.
    rewrite ?mbind_unfold, bind_emit. cbn [result snd].
    destruct input_error as [e|]; [cbn; tauto|].
    cbn [result snd ret]. rewrite ?mbind_unfold, result_bind.
    destruct (env_confirm env).
    + cbn [result snd ret]. rewrite ?mbind_unfold, result_bind.
      rewrite deploy_routes_run. cbn [result snd].
      pose proof (within_deploy_loop (env_post env) (length routes) 1 _ Ep)
        as Hdp. unfold within in Hdp.
      destruct (result (deploy_loop _ _ _ _)); [done|by left|done].
    + rewrite ?mbind_unfold, bind_print. cbn. by right.
Qed.

(** A run whose routes file does not exist: the requests of the first
    three stages are sent, nothing is read, and the run ends with the
    exception of [open]. *)
Example missing_routes_file_run :
  main_with int_literal
    {| env_auth := env_auth hosts_only_env;
       env_devices := env_devices hosts_only_env;
       env_networks := env_networks hosts_only_env;
       env_hosts := env_hosts hosts_only_env;
       env_routes_file := [];
       env_confirm := true;
       env_post := env_post hosts_only_env |}
    (Some OSError) None
  = ([Out LoggingIn; Http GenerateToken;
      Out (GettingDeviceId (lit "FTD_NAME")); Http ListDevices;
      Out GettingExistingObjects;
      Out FetchingNetworkObjects; Http ListNetworks;
      Out (ErrorGettingNetworkObjects (lit "500 Server Error"));
      Out FetchingHostObjects; Http ListHosts;
      Out (FoundHostObject (lit "obj-10.1.1.1"));
      Out (FoundHostObject (lit "obj-10.2.2.2"));
      Out (TotalObjectsFound 0 2);
      Out ParsingAndPreparing; Out ParsingRoutes],
     Raise OSError).
Proof. vm_compute. reflexivity. Qed.

(** A run whose standard input is closed: the routes are prepared, the
    prompt is shown, and the run ends with [EOFError] before any route is
    submitted. *)
Example closed_input_run :
  result (main_with int_literal hosts_only_env None (Some EOFError))
  = Raise EOFError
  ∧ submissions (trace (main_with int_literal hosts_only_env None
                          (Some EOFError))) = []
  ∧ last (trace (main_with int_literal hosts_only_env None (Some EOFError)))
    = Some Input.
Proof. vm_compute. done. Qed.

(** ** Entries without a type or an id *)

Lemma resolve_Resolved_named self intent net_obj gw_obj :
  result (resolve self intent) = Return (Resolved net_obj gw_obj) →
  is_Some (net_obj !! lit "name") ∧ is_Some (gw_obj !! lit "name").
Proof.
  rewrite resolve_run. cbv zeta.
  destruct (host_objects self !! _) as [g|]; [|discriminate].
  destruct (g !! lit "name") eqn:Eg; [|discriminate].
  destruct (partition_of self _ !! _) as [n|]; [|discriminate].
  destruct (n !! lit "name") eqn:En; [|discriminate].
  intros [= <- <-]. rewrite Eg, En. by split; eexists.
Qed.

(** X16: on a route line whose gateway and network both resolve, the
    iteration appends a route exactly when both entries carry a [type] and
    an [id]; when one of these four members is missing it raises the
    [KeyError] of a missing [type] or [id], which nothing catches, and no
    route is appended. *)
Theorem resolved_line_needs_type_and_id (py_int : str → option Z)
    self acc line intent net_obj gw_obj :
  parse_line py_int line = ret (Some intent) →
  result (resolve self intent) = Return (Resolved net_obj gw_obj) →
  ((∃ route, result (process_line py_int self acc line)
             = Return (acc.1 ++ [route], acc.2))
   ↔ is_Some (net_obj !! lit "type") ∧ is_Some (net_obj !! lit "id")
     ∧ is_Some (gw_obj !! lit "type") ∧ is_Some (gw_obj !! lit "id"))
  ∧ (¬ (is_Some (net_obj !! lit "type") ∧ is_Some (net_obj !! lit "id")
        ∧ is_Some (gw_obj !! lit "type") ∧ is_Some (gw_obj !! lit "id")) →
     result (process_line py_int self acc line) = Raise (KeyError (lit "type"))
     ∨ result (process_line py_int self acc line) = Raise (KeyError (lit "id"))).
Proof.
  intros Hp Hres.
  destruct (resolve_Resolved_named _ _ _ _ Hres) as [[nn Hnn] [gn Hgn]].
  rewrite (process_line_intent _ _ _ _ _ Hp), result_bind, Hres.
  unfold after_resolve, build_route, getitem.
  rewrite Hnn, Hgn.
  destruct (net_obj !! lit "type") as [nt|];
    [|rewrite mbind_unfold, result_bind; cbn; split;
      [split; [intros [? ?]; discriminate | intros ([? ?] & _); discriminate]
      | by left]].
  destruct (net_obj !! lit "id") as [ni|];
    [|msimpl; cbn; split;
      [split; [intros [? ?]; discriminate
              | intros (_ & [? ?] & _); discriminate]
      | by right]].
  destruct (gw_obj !! lit "type") as [gt|];
    [|msimpl; cbn; split;
      [split; [intros [? ?]; discriminate
              | intros (_ & _ & [? ?] & _); discriminate]
      | by left]].
  destruct (gw_obj !! lit "id") as [gi|];
    [|msimpl; cbn; split;
      [split; [intros [? ?]; discriminate
              | intros (_ & _ & _ & [? ?]); discriminate]
      | by right]].
  msimpl. cbn. split.
  - split; [by repeat split; eexists | by eexists].
  - intros H. destruct H. by repeat split; eexists.
Qed.

(** X16, witness: the worked example's line against a catalog whose
    network entry has no [id]. *)
Lemma resolved_line_needs_type_and_id_witness :
  ((∃ route, result (process_line int_literal catalog_without_id start
                       example_line)
             = Return (start.1 ++ [route], start.2))
   ↔ is_Some (entry_without_id !! lit "type")
     ∧ is_Some (entry_without_id !! lit "id")
     ∧ is_Some (gateway_entry !! lit "type")
     ∧ is_Some (gateway_entry !! lit "id"))
  ∧ (¬ (is_Some (entry_without_id !! lit "type")
        ∧ is_Some (entry_without_id !! lit "id")
        ∧ is_Some (gateway_entry !! lit "type")
        ∧ is_Some (gateway_entry !! lit "id")) →
     result (process_line int_literal catalog_without_id start example_line)
     = Raise (KeyError (lit "type"))
     ∨ result (process_line int_literal catalog_without_id start example_line)
       = Raise (KeyError (lit "id"))).
Proof.
  apply (resolved_line_needs_type_and_id int_literal catalog_without_id start
           example_line
           {| intent_interface := lit "inside";
              intent_network := lit "10.1.1.0";
              intent_netmask := lit "255.255.255.0";
              intent_gateway := lit "10.1.1.1";
              intent_metric := 1 |} entry_without_id gateway_entry).
  - vm_compute. reflexivity.
  - vm_compute. reflexivity.
Defined.
